(** * utils/http.go: the HTTP(S) server wrapper and its certificate resolver

    A shallow embedding of [HTTPConfig], [HTTP], [NewHTTP], [ListenAndServe]
    and [EnsureCert] of package [utils].  The Go methods act on the file
    system, on a logger and on the receiver [h *HTTP]; here they are
    functions in a state monad [IO] over a [World] (file system, entropy
    counter, chronological trace of effects) that return the error value
    together with the updated receiver.  The closure of
    [newHttpHandlerWrapper], which runs concurrently once per request, is
    a transition system over the contexts, watchers and handlers of the
    requests in flight. *)

From Stdlib Require Import NArith List Bool Lia.
From Stdlib Require Strings.Byte.
From stdpp Require Import base option gmap strings list.

(** ** Data *)

(** Go's [[]byte]. *)
Abbreviation bytes := (list Byte.byte).

#[global] Instance byte_eq_dec : EqDecision Byte.byte :=
  Strings.Byte.byte_eq_dec.

(** The error numbers a failed [open(2)] reports in this development. *)
Inductive Errno : Set :=
| ENOENT   (* no such file or directory *)
| EACCES   (* permission denied *)
| EROFS    (* read-only file system *)
| ENOSPC.  (* no space left on device *)

(** The dynamic values an [error] interface holds in this package.
    [PathError] is [*os.PathError] (operation, path, errno); [TLSError] is a
    parse or mismatch error of [tls.X509KeyPair]; [ErrServerClosed] is the
    sentinel [http.ErrServerClosed]; [OpError] is a listen/serve failure of
    [net]; [GenError] is a failure of [utils.GenerateSelfSignedCert];
    [TraceErr] is the wrapper that [trace.Wrap] builds around an error, with
    the user messages attached to it. *)
Inductive GoError : Set :=
| PathError (op path : string) (errno : Errno)
| TLSError (msg : string)
| ErrServerClosed
| OpError (msg : string)
| GenError (msg : string)
| TraceErr (inner : GoError) (msgs : list string).

(** An [error] interface value: [None] is [nil]. *)
Abbreviation error := (option GoError).

#[global] Instance Errno_eq_dec : EqDecision Errno.
Proof. solve_decision. Defined.

#[global] Instance GoError_eq_dec : EqDecision GoError.
Proof.
  refine (fix go (x y : GoError) {struct x} : Decision (x = y) :=
    match x, y with
    | PathError o1 p1 e1, PathError o2 p2 e2 =>
        cast_if_and3 (decide (o1 = o2)) (decide (p1 = p2)) (decide (e1 = e2))
    | TLSError m1, TLSError m2 => cast_if (decide (m1 = m2))
    | ErrServerClosed, ErrServerClosed => left _
    | OpError m1, OpError m2 => cast_if (decide (m1 = m2))
    | GenError m1, GenError m2 => cast_if (decide (m1 = m2))
    | TraceErr i1 m1, TraceErr i2 m2 =>
        cast_if_and (go i1 i2) (decide (m1 = m2))
    | _, _ => right _
    end); abstract congruence.
Defined.

(** [trace.Wrap(err, args...)]: [nil] stays [nil]; an error that already
    carries a trace keeps it and gets the message added; any other error is
    put inside a new trace. *)
Definition Wrap (err : error) (args : list string) : error :=
  match err with
  | None => None
  | Some (TraceErr inner msgs) => Some (TraceErr inner (msgs ++ args))
  | Some e => Some (TraceErr e args)
  end.

(** [os.IsNotExist(err)]: looks through a [*PathError] at the errno. *)
Definition IsNotExist (err : error) : bool :=
  match err with
  | Some (PathError _ _ ENOENT) => true
  | _ => false
  end.

(** [type HTTPConfig struct] *)
Record HTTPConfig : Set := mkHTTPConfig {
  Listen   : string;
  KeyFile  : string;
  CertFile : string;
  Hostname : string;
  Insecure : bool
}.

(** A [context.Context] is identified by a number; [*httprouter.Router] is
    opaque to the wrapper and only ever created empty by [NewHTTP]. *)
Abbreviation Context := nat.

Inductive Router : Set := httprouter_New.

(** [type httpHandlerWrapper struct]: the closure stored in [serve] captures
    the base context and the wrapped handler. *)
Record httpHandlerWrapper : Set := mkWrapper {
  baseCtx : Context;
  handler : Router
}.

Definition newHttpHandlerWrapper (ctx : Context) (r : Router) :
  httpHandlerWrapper := mkWrapper ctx r.

(** The two fields of [http.Server] the wrapper touches. *)
Record Server : Set := mkServer {
  Addr    : string;
  Handler : option httpHandlerWrapper
}.

(** [type HTTP struct]: the embedded [HTTPConfig], the router, the server. *)
Record HTTP : Set := mkHTTP {
  Config  : HTTPConfig;
  router  : Router;
  server  : Server
}.

(** [func NewHTTP(config HTTPConfig) *HTTP] *)
Definition NewHTTP (config : HTTPConfig) : HTTP :=
  mkHTTP config httprouter_New (mkServer (Listen config) None).

(** The assignments [h.CertFile = ...] and [h.KeyFile = ...] through the
    pointer receiver. *)
Definition set_CertFile (v : string) (h : HTTP) : HTTP :=
  let c := Config h in
  mkHTTP (mkHTTPConfig (Listen c) (KeyFile c) v (Hostname c) (Insecure c))
         (router h) (server h).

Definition set_KeyFile (v : string) (h : HTTP) : HTTP :=
  let c := Config h in
  mkHTTP (mkHTTPConfig (Listen c) v (CertFile c) (Hostname c) (Insecure c))
         (router h) (server h).

Definition set_Handler (v : httpHandlerWrapper) (h : HTTP) : HTTP :=
  mkHTTP (Config h) (router h) (mkServer (Addr (server h)) (Some v)).

(** Why the blocking serve call of [net/http] came back.  The package
    documents of [net/http]: [ListenAndServe] and [ListenAndServeTLS] always
    return a non-nil error, and after [Close] or [Shutdown] that error is
    [ErrServerClosed].  [ScopeCancelled] is the return after the goroutine
    of [ListenAndServe] saw [ctx.Done()] and called [h.server.Close()];
    [ShutdownCalled] is the return after [h.Shutdown]; [ServeFailed] is any
    failure to listen or to serve. *)
Inductive Termination : Set :=
| ScopeCancelled
| ShutdownCalled
| ServeFailed (e : GoError).

Definition serve_error (t : Termination) : GoError :=
  match t with
  | ScopeCancelled | ShutdownCalled => ErrServerClosed
  | ServeFailed e => e
  end.

(** ** The world the methods act on *)

(** A regular file: its contents and its permission bits. *)
Record File : Set := mkFile {
  f_data : bytes;
  f_mode : N
}.

(** The file system as the process sees it: the regular files by path, and
    the paths at which creating a file is refused, with the errno of the
    refusal (a missing parent directory, a directory without write
    permission, a read-only mount, a full device). *)
Record FS : Type := mkFS {
  fs_files    : gmap string File;
  fs_nocreate : gmap string Errno
}.

Variant Level : Set := LvlInfo | LvlWarning.

(** What a call does to its environment, in the order it does it. *)
Inductive Event : Set :=
| EvReadFile (path : string)
| EvWriteFile (path : string) (data : bytes) (perm : N)
| EvGenerate (hosts : list string)
| EvListenAndServe (addr : string)
| EvListenAndServeTLS (addr certFile keyFile : string)
| EvLog (lvl : Level) (msg : string).

Record World : Type := mkWorld {
  w_fs      : FS;
  w_entropy : nat;
  w_trace   : list Event
}.

(** State passing over the world. *)
Definition IO (A : Type) : Type := World -> A * World.

#[global] Instance IO_ret : MRet IO := fun A (x : A) w => (x, w).
#[global] Instance IO_bind : MBind IO :=
  fun A B (f : A -> IO B) (m : IO A) w => let '(a, w') := m w in f a w'.

Definition emit (ev : Event) : IO unit := fun w =>
  (tt, mkWorld (w_fs w) (w_entropy w) (w_trace w ++ [ev])).

Definition get_fs : IO FS := fun w => (w_fs w, w).

Definition put_fs (fs : FS) : IO unit := fun w =>
  (tt, mkWorld fs (w_entropy w) (w_trace w)).

Definition log (lvl : Level) (msg : string) : IO unit := emit (EvLog lvl msg).

(** The mode [0600] (octal) that [EnsureCert] passes to [ioutil.WriteFile]:
    read and write for the owner, nothing for group and others. *)
Definition perm_0600 : N := 6 * 64.

(** Owner permission bits: [0400] is bit 8, [0200] is bit 7. *)
Definition owner_readable (f : File) : bool := N.testbit (f_mode f) 8.
Definition owner_writable (f : File) : bool := N.testbit (f_mode f) 7.

(** [os.ReadFile] on the file system: an absent path is [ENOENT], a file
    the owner may not read is [EACCES].  Other failures of the open (a
    path through a file that is not a directory) are outside it; the
    results on [EnsureCert] take the loader's error as a hypothesis. *)
Definition read_fs (fs : FS) (path : string) : GoError + bytes :=
  match fs_files fs !! path with
  | None => inl (PathError "open" path ENOENT)
  | Some f =>
      if owner_readable f then inr (f_data f)
      else inl (PathError "open" path EACCES)
  end.

(** [ioutil.WriteFile(path, data, perm)] on the file system: opens with
    [O_WRONLY|O_CREATE|O_TRUNC]; an existing file keeps its mode and gets
    the new contents, an absent one is created with mode [perm] unless the
    creation is refused.  This is the call up to the opening of the file:
    a write that stops after the file was opened, the process umask and
    the superuser's pass through the permission bits are outside it.  The
    results on [EnsureCert] that involve a write therefore take the
    outcome of [write_fs] as a hypothesis, and say of the mode of a created
    file only that it lies within [perm]. *)
Definition write_fs (fs : FS) (path : string) (data : bytes) (perm : N) :
  error * FS :=
  match fs_files fs !! path with
  | Some f =>
      if owner_writable f
      then (None, mkFS (<[path := mkFile data (f_mode f)]> (fs_files fs))
                       (fs_nocreate fs))
      else (Some (PathError "open" path EACCES), fs)
  | None =>
      match fs_nocreate fs !! path with
      | Some e => (Some (PathError "open" path e), fs)
      | None => (None, mkFS (<[path := mkFile data perm]> (fs_files fs))
                            (fs_nocreate fs))
      end
  end.

Definition ReadFile (path : string) : IO (GoError + bytes) :=
  _ ← emit (EvReadFile path);
  fs ← get_fs;
  mret (read_fs fs path).

Definition WriteFile (path : string) (data : bytes) (perm : N) : IO error :=
  _ ← emit (EvWriteFile path data perm);
  fs ← get_fs;
  let '(err, fs') := write_fs fs path data perm in
  _ ← put_fs fs';
  mret err.

(** ** The libraries the package calls *)

(** [utils.TLSCredentials] of teleport's [lib/utils]. *)
Record TLSCredentials : Set := mkCreds {
  PublicKey  : bytes;
  PrivateKey : bytes;
  Cert       : bytes
}.

(** The two library functions whose bodies are outside the package:
    [tls.X509KeyPair] (the error message, or [None] when the PEM blocks
    parse and the key matches the certificate) and
    [utils.GenerateSelfSignedCert] (reads the system's randomness, here the
    entropy counter of the world). *)
Class External : Type := {
  X509KeyPair : bytes -> bytes -> option string;
  GenerateSelfSignedCert : nat -> list string -> string + TLSCredentials
}.

Section Package.
Context `{External}.

(** [tls.LoadX509KeyPair(certFile, keyFile)]: reads the certificate file,
    then the key file, then parses the pair; the first failure is
    returned.  Only the error of the result is kept, as the callers do. *)
Definition LoadX509KeyPair (certFile keyFile : string) : IO error :=
  c ← ReadFile certFile;
  match c with
  | inl e => mret (Some e)
  | inr certPEMBlock =>
      k ← ReadFile keyFile;
      match k with
      | inl e => mret (Some e)
      | inr keyPEMBlock =>
          mret (TLSError <$> X509KeyPair certPEMBlock keyPEMBlock)
      end
  end.

Definition generate (hosts : list string) : IO (GoError + TLSCredentials) :=
  fun w =>
    (match GenerateSelfSignedCert (w_entropy w) hosts with
     | inl m => inl (GenError m)
     | inr creds => inr creds
     end,
     mkWorld (w_fs w) (S (w_entropy w)) (w_trace w ++ [EvGenerate hosts])).

(** [func (h *HTTP) EnsureCert(defaultPath string) (err error)] *)
Definition EnsureCert (h : HTTP) (defaultPath : string) : IO (error * HTTP) :=
  if Insecure (Config h) then mret (None, h)
  else if negb (String.eqb (CertFile (Config h)) "") then
    err ← LoadX509KeyPair (CertFile (Config h)) (KeyFile (Config h));
    mret (err, h)
  else
    _ ← log LvlWarning "No TLS Keys provided, using self signed certificate.";
    let h := set_CertFile (defaultPath +:+ ".crt") h in
    let h := set_KeyFile (defaultPath +:+ ".key") h in
    err ← LoadX509KeyPair (CertFile (Config h)) (KeyFile (Config h));
    match err with
    | None => mret (None, h)
    | Some _ =>
        if negb (IsNotExist err)
        then mret (Wrap err ["unrecognized error reading certs"], h)
        else
          _ ← log LvlWarning
                ("Generating self signed key and cert to "
                   +:+ KeyFile (Config h) +:+ " " +:+ CertFile (Config h)
                   +:+ ".");
          r ← generate [Hostname (Config h); "localhost"];
          match r with
          | inl e => mret (Wrap (Some e) [], h)
          | inr creds =>
              e1 ← WriteFile (KeyFile (Config h)) (PrivateKey creds) perm_0600;
              match e1 with
              | Some _ => mret (Wrap e1 ["error writing key PEM"], h)
              | None =>
                  e2 ← WriteFile (CertFile (Config h)) (Cert creds) perm_0600;
                  match e2 with
                  | Some _ => mret (Wrap e2 ["error writing cert PEM"], h)
                  | None => mret (None, h)
                  end
              end
          end
    end.

End Package.

(** [h.server.ListenAndServe()] and [h.server.ListenAndServeTLS(c, k)]:
    block until the server stops, for the reason [t].  One event stands
    for the whole library call; for the TLS call that includes its own
    loading of the two files it is given, whose failure is one of the
    failures [ServeFailed] stands for. *)
Definition server_ListenAndServe (s : Server) (t : Termination) : IO error :=
  _ ← emit (EvListenAndServe (Addr s));
  mret (Some (serve_error t)).

Definition server_ListenAndServeTLS (s : Server) (certFile keyFile : string)
    (t : Termination) : IO error :=
  _ ← emit (EvListenAndServeTLS (Addr s) certFile keyFile);
  mret (Some (serve_error t)).

(** [func (h *HTTP) ListenAndServe(ctx context.Context) error].  The
    deferred [log.Info] runs last. *)
Definition ListenAndServe (h : HTTP) (ctx : Context) (t : Termination) :
    IO (error * HTTP) :=
  let h := set_Handler (newHttpHandlerWrapper ctx (router h)) h in
  err ← (if Insecure (Config h) then
           _ ← log LvlInfo ("Starting insecure HTTP server on "
                              +:+ Listen (Config h));
           server_ListenAndServe (server h) t
         else
           _ ← log LvlInfo ("Starting secure HTTPS server on "
                              +:+ Listen (Config h));
           server_ListenAndServeTLS (server h) (CertFile (Config h))
                                    (KeyFile (Config h)) t);
  let result := if decide (err = Some ErrServerClosed) then None
                else Wrap err [] in
  _ ← log LvlInfo "HTTP server terminated";
  mret (result, h).

(** [func (h *HTTP) Shutdown(ctx context.Context) error]: hands over to
    [h.server.Shutdown(ctx)], whose result is [outcome]. *)
Definition Shutdown (h : HTTP) (ctx : Context) (outcome : error) :
    IO (error * HTTP) :=
  mret (outcome, h).

(** ** Reading a call's result and its effects *)

Definition result_of {A} (r : (error * HTTP) * A) : error := r.1.1.
Definition receiver_of {A} (r : (error * HTTP) * A) : HTTP := r.1.2.
Definition world_of {A B} (r : A * B) : B := r.2.

(** The events a call added to the trace. *)
Definition effects (before after : World) : list Event :=
  drop (length (w_trace before)) (w_trace after).

Definition is_read (ev : Event) : bool :=
  match ev with EvReadFile _ => true | _ => false end.

Definition is_write (ev : Event) : bool :=
  match ev with EvWriteFile _ _ _ => true | _ => false end.

Definition is_generate (ev : Event) : bool :=
  match ev with EvGenerate _ => true | _ => false end.

(** The file-system part of [tls.LoadX509KeyPair], as a function of the
    file system alone. *)
Definition load_pair `{External} (fs : FS) (certFile keyFile : string) :
    error :=
  match read_fs fs certFile with
  | inl e => Some e
  | inr c =>
      match read_fs fs keyFile with
      | inl e => Some e
      | inr k => TLSError <$> X509KeyPair c k
      end
  end.

Definition load_reads (fs : FS) (certFile keyFile : string) : list Event :=
  match read_fs fs certFile with
  | inl _ => [EvReadFile certFile]
  | inr _ => [EvReadFile certFile; EvReadFile keyFile]
  end.

(** The receiver after the two assignments of the fallback branch. *)
Definition with_default_paths (h : HTTP) (defaultPath : string) : HTTP :=
  set_KeyFile (defaultPath +:+ ".key")
              (set_CertFile (defaultPath +:+ ".crt") h).

(** The events of the fallback branch up to and including the load. *)
Definition fallback_prefix (fs : FS) (dp : string) : list Event :=
  EvLog LvlWarning "No TLS Keys provided, using self signed certificate."
  :: load_reads fs (dp +:+ ".crt") (dp +:+ ".key").

(** The events of the generation branch between the load and the writes. *)
Definition generate_events (h : HTTP) (dp : string) : list Event :=
  [EvLog LvlWarning
     ("Generating self signed key and cert to "
        +:+ (dp +:+ ".key") +:+ " " +:+ (dp +:+ ".crt") +:+ ".");
   EvGenerate [Hostname (Config h); "localhost"]].

(** The path an event reads or writes, if it touches the file system. *)
Definition event_path (ev : Event) : option string :=
  match ev with
  | EvReadFile p => Some p
  | EvWriteFile p _ _ => Some p
  | _ => None
  end.

(** ** Requests served under the scope *)













(** ** A small instance to run the model on *)

Module Demo.

Definition b (s : string) : bytes := String.list_byte_of_string s.

(** A pair parses when the certificate is ["C"] (byte [0x43]) and the
    key is ["K"] (byte [0x4b]) followed by the same body. *)
Definition x509 (certPEM keyPEM : bytes) : option string :=
  match certPEM, keyPEM with
  | c :: cb, k :: kb =>
      if decide (c = Byte.x43 /\ k = Byte.x4b) then
        if decide (cb = kb) then None
        else Some "tls: private key does not match public key"
      else Some "tls: failed to find any PEM data in input"
  | _, _ => Some "tls: failed to find any PEM data in input"
  end.

Definition body (seed : nat) (hosts : list string) : bytes :=
  b (String.concat "," hosts) ++ replicate seed Byte.x23.

Definition gen (seed : nat) (hosts : list string) :
    string + TLSCredentials :=
  inr (mkCreds (Byte.x50 :: body seed hosts)
               (Byte.x4b :: body seed hosts)
               (Byte.x43 :: body seed hosts)).

#[export] Instance ext : External :=
  {| X509KeyPair := x509; GenerateSelfSignedCert := gen |}.

(** A certificate of [gen] covers the names it was generated for. *)
Definition covers (cert : bytes) (name : string) : Prop :=
  exists seed hosts, cert = Byte.x43 :: body seed hosts /\ In name hosts.

(** A generator whose key does not match its certificate. *)
Definition ext_mismatch : External :=
  {| X509KeyPair := x509;
     GenerateSelfSignedCert := fun seed hosts =>
       inr (mkCreds (Byte.x50 :: body seed hosts)
                    (Byte.x4b :: Byte.x23 :: body seed hosts)
                    (Byte.x43 :: body seed hosts)) |}.

(** A generator that fails. *)
Definition ext_nogen : External :=
  {| X509KeyPair := x509;
     GenerateSelfSignedCert := fun _ _ => inl "crypto/rsa: no entropy" |}.

Definition dp : string := "/var/lib/teleport/plugins/slackbot/cert".

Definition cfg (certFile keyFile : string) (insecure : bool) : HTTPConfig :=
  mkHTTPConfig ":8081" keyFile certFile "bot.example.com" insecure.

(** Wrappers as [NewHTTP] builds them: TLS with no paths, TLS with
    explicit paths, plaintext. *)
Definition h_default : HTTP := NewHTTP (cfg "" "" false).
Definition h_explicit : HTTP := NewHTTP (cfg "/etc/bot.crt" "/etc/bot.key" false).
Definition h_insecure : HTTP := NewHTTP (cfg "" "" true).

Definition world (files : list (string * File))
    (nocreate : list (string * Errno)) : World :=
  mkWorld (mkFS (list_to_map files) (list_to_map nocreate)) 0 [].

(** An empty, writable data directory. *)
Definition w_empty : World := world [] [].

(** The data directory does not exist. *)
Definition w_nodir : World :=
  world [] [(dp +:+ ".key", ENOENT); (dp +:+ ".crt", ENOENT)].


(** The device fills up after the key file. *)
Definition w_full : World := world [] [(dp +:+ ".crt", ENOSPC)].

(** A corrupt pair is present at the default paths. *)
Definition w_corrupt : World :=
  world [(dp +:+ ".crt", mkFile (b "garbage") perm_0600);
         (dp +:+ ".key", mkFile (b "Kabc") perm_0600)] [].

(** A certificate file is present at the default path, its key is not. *)
Definition w_orphan : World :=
  world [(dp +:+ ".crt", mkFile (b "garbage") perm_0600)] [].

(** Explicit paths: a matching pair, and a mismatched one. *)
Definition w_good : World :=
  world [("/etc/bot.crt", mkFile (b "Cabc") perm_0600);
         ("/etc/bot.key", mkFile (b "Kabc") perm_0600)] [].

Definition w_mismatch : World :=
  world [("/etc/bot.crt", mkFile (b "Cabc") perm_0600);
         ("/etc/bot.key", mkFile (b "Kxyz") perm_0600)] [].

(** A matching pair is present at the default paths. *)
Definition w_pair : World :=
  world [(dp +:+ ".crt", mkFile (b "Cabc") perm_0600);
         (dp +:+ ".key", mkFile (b "Kabc") perm_0600)] [].

(** A key file with mode [0644] is present at the default path, its
    certificate is not. *)
Definition w_orphan_key : World :=
  world [(dp +:+ ".key", mkFile (b "Kold") (6 * 64 + 4 * 8 + 4))] [].


End Demo.

(** ** Basic facts *)

Lemma crt_key_distinct (p : string) : p +:+ ".crt" <> p +:+ ".key".
Proof.
  induction p as [|a p IH]; simpl.
  - discriminate.
  - intros E. injection E as E. exact (IH E).
Qed.

Lemma Wrap_non_nil (e : GoError) (args : list string) :
  exists inner msgs, Wrap (Some e) args = Some (TraceErr inner msgs).
Proof. destruct e; simpl; eauto. Qed.

Lemma Wrap_nil_iff (err : error) (args : list string) :
  Wrap err args = None <-> err = None.
Proof.
  destruct err as [e|]; simpl; [|tauto].
  destruct (Wrap_non_nil e args) as (i & m & E). simpl in E. rewrite E.
  split; discriminate.
Qed.

Lemma effects_extend (w : World) fs n (evs : list Event) :
  effects w (mkWorld fs n (w_trace w ++ evs)) = evs.
Proof. unfold effects; simpl. apply drop_app_length. Qed.

Lemma effects_none (w : World) : effects w w = [].
Proof. unfold effects. apply drop_all. Qed.

Lemma load_reads_are_reads (fs : FS) (c k : string) :
  Forall (fun ev => is_read ev = true) (load_reads fs c k).
Proof.
  unfold load_reads. destruct (read_fs fs c); repeat constructor.
Qed.

Lemma write_fs_failure (fs fs' : FS) (p : string) (d : bytes) (m : N)
    (e : GoError) :
  write_fs fs p d m = (Some e, fs') -> fs' = fs.
Proof.
  unfold write_fs. intros E.
  destruct (fs_files fs !! p) as [f|].
  - destruct (owner_writable f); congruence.
  - destruct (fs_nocreate fs !! p); congruence.
Qed.

Lemma write_fs_success (fs fs' : FS) (p : string) (d : bytes) (m : N) :
  write_fs fs p d m = (None, fs') ->
  exists m', fs_files fs' = <[p := mkFile d m']> (fs_files fs)
             /\ fs_nocreate fs' = fs_nocreate fs
             /\ (fs_files fs !! p = None -> m' = m).
Proof.
  unfold write_fs. intros E.
  destruct (fs_files fs !! p) as [f|] eqn:L.
  - destruct (owner_writable f); [|discriminate].
    injection E as <-. exists (f_mode f). simpl. repeat split. discriminate.
  - destruct (fs_nocreate fs !! p); [discriminate|].
    injection E as <-. exists m. simpl. auto.
Qed.

Lemma write_fs_success_existing (fs fs' : FS) (p : string) (d : bytes)
    (m : N) (f : File) :
  fs_files fs !! p = Some f ->
  write_fs fs p d m = (None, fs') ->
  fs_files fs' = <[p := mkFile d (f_mode f)]> (fs_files fs).
Proof.
  unfold write_fs. intros -> E.
  destruct (owner_writable f); [|discriminate].
  injection E as <-. reflexivity.
Qed.

Ltac trace_eq :=
  repeat (progress cbn [app] || rewrite <- app_assoc); reflexivity.

Section Runs.
Context `{External}.

(** [LoadX509KeyPair] reads and changes nothing: its error is [load_pair]
    of the file system, and it adds the reads to the trace. *)
Lemma LoadX509KeyPair_run (c k : string) (w : World) :
  LoadX509KeyPair c k w
  = (load_pair (w_fs w) c k,
     mkWorld (w_fs w) (w_entropy w) (w_trace w ++ load_reads (w_fs w) c k)).
Proof.
  unfold LoadX509KeyPair, load_pair, load_reads, ReadFile, emit, get_fs,
    mbind, mret, IO_bind, IO_ret; simpl.
  destruct (read_fs (w_fs w) c) as [e|cp]; [reflexivity|].
  simpl. destruct (read_fs (w_fs w) k) as [e|kp]; simpl;
    rewrite <- app_assoc; reflexivity.
Qed.

Lemma EnsureCert_insecure (h : HTTP) (dp : string) (w : World) :
  Insecure (Config h) = true -> EnsureCert h dp w = (None, h, w).
Proof. unfold EnsureCert. intros ->. reflexivity. Qed.

Lemma EnsureCert_explicit (h : HTTP) (dp : string) (w : World) :
  Insecure (Config h) = false -> CertFile (Config h) <> "" ->
  EnsureCert h dp w
  = (load_pair (w_fs w) (CertFile (Config h)) (KeyFile (Config h)), h,
     mkWorld (w_fs w) (w_entropy w)
       (w_trace w
          ++ load_reads (w_fs w) (CertFile (Config h)) (KeyFile (Config h)))).
Proof.
  unfold EnsureCert. intros -> NE.
  destruct (String.eqb (CertFile (Config h)) "") eqn:E.
  - apply String.eqb_eq in E. contradiction.
  - simpl. unfold mbind, mret, IO_bind, IO_ret.
    rewrite LoadX509KeyPair_run. reflexivity.
Qed.

Ltac run_fallback :=
  unfold EnsureCert;
  match goal with
  | Hi : Insecure _ = false, Hc : CertFile _ = "" |- _ => rewrite Hi, Hc
  end;
  cbn [String.eqb negb];
  unfold mbind, mret, IO_bind, IO_ret, log, emit;
  cbn [w_fs w_entropy w_trace];
  rewrite LoadX509KeyPair_run;
  cbn [w_fs w_entropy w_trace set_KeyFile set_CertFile Config CertFile KeyFile
       Hostname Insecure Listen router server].

(** Fallback, the pair of an earlier run loads: accepted as it is. *)
Lemma EnsureCert_reuse (h : HTTP) (dp : string) (w : World) :
  Insecure (Config h) = false -> CertFile (Config h) = "" ->
  load_pair (w_fs w) (dp +:+ ".crt") (dp +:+ ".key") = None ->
  EnsureCert h dp w
  = (None, with_default_paths h dp,
     mkWorld (w_fs w) (w_entropy w)
       (w_trace w ++ fallback_prefix (w_fs w) dp)).
Proof.
  intros Hi Hc L. run_fallback. rewrite L.
  unfold fallback_prefix. rewrite <- app_assoc. reflexivity.
Qed.

(** Fallback, the load fails and the failure is not "does not exist". *)
Lemma EnsureCert_unrecognized (h : HTTP) (dp : string) (w : World)
    (e : GoError) :
  Insecure (Config h) = false -> CertFile (Config h) = "" ->
  load_pair (w_fs w) (dp +:+ ".crt") (dp +:+ ".key") = Some e ->
  IsNotExist (Some e) = false ->
  EnsureCert h dp w
  = (Wrap (Some e) ["unrecognized error reading certs"],
     with_default_paths h dp,
     mkWorld (w_fs w) (w_entropy w)
       (w_trace w ++ fallback_prefix (w_fs w) dp)).
Proof.
  intros Hi Hc L NE. run_fallback. rewrite L, NE. cbn [negb].
  unfold fallback_prefix. rewrite <- app_assoc. reflexivity.
Qed.

(** Fallback, the load fails because a file does not exist: generation,
    then the key file, then the certificate file. *)
Lemma EnsureCert_generate (h : HTTP) (dp : string) (w : World)
    (e : GoError) :
  Insecure (Config h) = false -> CertFile (Config h) = "" ->
  load_pair (w_fs w) (dp +:+ ".crt") (dp +:+ ".key") = Some e ->
  IsNotExist (Some e) = true ->
  let h' := with_default_paths h dp in
  let key := dp +:+ ".key" in
  let crt := dp +:+ ".crt" in
  let tr := w_trace w ++ fallback_prefix (w_fs w) dp ++ generate_events h dp in
  let n := S (w_entropy w) in
  EnsureCert h dp w
  = match GenerateSelfSignedCert (w_entropy w)
            [Hostname (Config h); "localhost"] with
    | inl m => (Some (TraceErr (GenError m) []), h', mkWorld (w_fs w) n tr)
    | inr creds =>
        let wk := EvWriteFile key (PrivateKey creds) perm_0600 in
        let wc := EvWriteFile crt (Cert creds) perm_0600 in
        match write_fs (w_fs w) key (PrivateKey creds) perm_0600 with
        | (Some e1, _) =>
            (Wrap (Some e1) ["error writing key PEM"], h',
             mkWorld (w_fs w) n (tr ++ [wk]))
        | (None, fs1) =>
            match write_fs fs1 crt (Cert creds) perm_0600 with
            | (Some e2, _) =>
                (Wrap (Some e2) ["error writing cert PEM"], h',
                 mkWorld fs1 n (tr ++ [wk; wc]))
            | (None, fs2) => (None, h', mkWorld fs2 n (tr ++ [wk; wc]))
            end
        end
    end.
Proof.
  intros Hi Hc L NE. run_fallback. rewrite L, NE. cbn [negb].
  unfold generate, WriteFile, put_fs, get_fs, mbind, mret, IO_bind, IO_ret,
    emit, fallback_prefix, generate_events.
  cbn [w_fs w_entropy w_trace].
  destruct (GenerateSelfSignedCert _ _) as [m|creds].
  - cbn [w_fs w_entropy w_trace Wrap]. trace_eq.
  - cbn [w_fs w_entropy w_trace].
    destruct (write_fs (w_fs w) _ _ _) as [[e1|] fs1] eqn:W1.
    + apply write_fs_failure in W1 as ->.
      unfold with_default_paths. trace_eq.
    + cbn [w_fs w_entropy w_trace].
      destruct (write_fs fs1 _ _ _) as [[e2|] fs2] eqn:W2.
      * apply write_fs_failure in W2 as ->.
        unfold with_default_paths. trace_eq.
      * unfold with_default_paths. trace_eq.
Qed.

End Runs.

(** ** ListenAndServe *)

Lemma ListenAndServe_run (h : HTTP) (ctx : Context) (t : Termination)
    (w : World) :
  exists evs,
    ListenAndServe h ctx t w
    = (if decide (serve_error t = ErrServerClosed) then None
       else Wrap (Some (serve_error t)) [],
       set_Handler (newHttpHandlerWrapper ctx (router h)) h,
       mkWorld (w_fs w) (w_entropy w) (w_trace w ++ evs)).
Proof.
  unfold ListenAndServe, server_ListenAndServe, server_ListenAndServeTLS,
    log, emit, mbind, mret, IO_bind, IO_ret.
  cbn [set_Handler Config server Addr].
  destruct (Insecure (Config h)); cbn [w_fs w_entropy w_trace];
    (eexists; f_equal; [f_equal|f_equal; trace_eq]);
    destruct (decide (serve_error t = ErrServerClosed)) as [E|NE];
    try (rewrite E; rewrite decide_True by reflexivity; reflexivity);
    rewrite decide_False by congruence; reflexivity.
Qed.

(** C1. [ListenAndServe] returns [nil] exactly when the serve call of
    [net/http] came back with the sentinel [http.ErrServerClosed], which is
    what it does after the scope was cancelled (the listener closed) and
    after an explicit shutdown; for every other listen or serve failure it
    returns that failure inside a [trace.Wrap] wrapper, which is not
    [nil]. *)
Theorem ListenAndServe_result (h : HTTP) (ctx : Context) (t : Termination)
    (w : World) :
  let err := result_of (ListenAndServe h ctx t w) in
  (err = None <-> serve_error t = ErrServerClosed)
  /\ (t = ScopeCancelled \/ t = ShutdownCalled -> err = None)
  /\ (serve_error t <> ErrServerClosed ->
      err = Wrap (Some (serve_error t)) []
      /\ exists inner msgs, err = Some (TraceErr inner msgs)).
Proof.
  destruct (ListenAndServe_run h ctx t w) as [evs E].
  cbv zeta. rewrite E. unfold result_of. cbn [fst].
  destruct (decide (serve_error t = ErrServerClosed)) as [C|NC].
  - split; [tauto|]. split; [reflexivity|]. contradiction.
  - destruct (Wrap_non_nil (serve_error t) []) as (i & m & W).
    split; [|split].
    + rewrite W. split; [discriminate|contradiction].
    + intros [-> | ->]; exfalso; apply NC; reflexivity.
    + intros _. split; [reflexivity|]. eauto.
Qed.

(** ** EnsureCert: the branches that do not generate *)

(** C5. With [Insecure] set, [EnsureCert] returns [nil] at once: the
    receiver (so the whole configuration) and the world are the ones it
    was called with, and the call adds no event, whatever [CertFile],
    [KeyFile], [Hostname] and [defaultPath] are. *)
Theorem EnsureCert_insecure_noop `{External} (h : HTTP) (defaultPath : string)
    (w : World) :
  Insecure (Config h) = true ->
  let r := EnsureCert h defaultPath w in
  result_of r = None
  /\ receiver_of r = h
  /\ world_of r = w
  /\ effects w (world_of r) = [].
Proof.
  intros Hi. cbv zeta. rewrite (EnsureCert_insecure h defaultPath w Hi).
  unfold result_of, receiver_of, world_of. cbn [fst snd].
  repeat split. apply effects_none.
Qed.

Lemma EnsureCert_insecure_noop_witness :
  Insecure (Config Demo.h_insecure) = true
  /\ result_of (@EnsureCert Demo.ext Demo.h_insecure Demo.dp Demo.w_mismatch)
     = None
  /\ world_of (@EnsureCert Demo.ext Demo.h_insecure Demo.dp Demo.w_mismatch)
     = Demo.w_mismatch.
Proof.
  split; [reflexivity|].
  destruct (@EnsureCert_insecure_noop Demo.ext Demo.h_insecure Demo.dp
              Demo.w_mismatch eq_refl) as (R & _ & W & _).
  exact (conj R W).
Defined.

(** C4. With [Insecure] unset and [CertFile] not empty, [EnsureCert]
    loads the configured pair and returns the loader's error value as it
    is ([nil] on success, the unwrapped load or parse error otherwise); it
    leaves the receiver, the file system and the entropy as they were, and
    every event of the call is a file read: nothing is written and nothing
    is generated. *)
Theorem EnsureCert_explicit_paths `{External} (h : HTTP)
    (defaultPath : string) (w : World) :
  Insecure (Config h) = false ->
  CertFile (Config h) <> "" ->
  let r := EnsureCert h defaultPath w in
  result_of r
    = (LoadX509KeyPair (CertFile (Config h)) (KeyFile (Config h)) w).1
  /\ receiver_of r = h
  /\ w_fs (world_of r) = w_fs w
  /\ w_entropy (world_of r) = w_entropy w
  /\ Forall (fun ev => is_read ev = true) (effects w (world_of r)).
Proof.
  intros Hi Hc. cbv zeta.
  rewrite (EnsureCert_explicit h defaultPath w Hi Hc), LoadX509KeyPair_run.
  unfold result_of, receiver_of, world_of. cbn [fst snd w_fs w_entropy].
  repeat split. rewrite effects_extend. apply load_reads_are_reads.
Qed.

Lemma EnsureCert_explicit_paths_witness :
  Insecure (Config Demo.h_explicit) = false
  /\ CertFile (Config Demo.h_explicit) <> ""
  /\ result_of (@EnsureCert Demo.ext Demo.h_explicit Demo.dp Demo.w_mismatch)
     = Some (TLSError "tls: private key does not match public key")
  /\ result_of (@EnsureCert Demo.ext Demo.h_explicit Demo.dp Demo.w_good)
     = None
  /\ w_fs (world_of (@EnsureCert Demo.ext Demo.h_explicit Demo.dp
                       Demo.w_mismatch))
     = w_fs Demo.w_mismatch.
Proof.
  assert (NE : CertFile (Config Demo.h_explicit) <> "") by discriminate.
  split; [reflexivity|]. split; [exact NE|].
  destruct (@EnsureCert_explicit_paths Demo.ext Demo.h_explicit Demo.dp
              Demo.w_mismatch eq_refl NE) as (R & _ & F & _).
  destruct (@EnsureCert_explicit_paths Demo.ext Demo.h_explicit Demo.dp
              Demo.w_good eq_refl NE) as (R' & _).
  split; [rewrite R; vm_compute; reflexivity|].
  split; [rewrite R'; vm_compute; reflexivity|exact F].
Defined.

(** C2. With [Insecure] unset and [CertFile] empty, when the pair at
    [defaultPath + ".crt"] / [defaultPath + ".key"] fails to load with an
    error that is not a does-not-exist error, [EnsureCert] returns that
    error inside a [trace.Wrap] wrapper (not [nil]), the file system is the
    one it started with, and no event of the call is a write or a
    generation.  Conversely a call that generates or writes had a load
    failure for which [os.IsNotExist] holds. *)
Theorem EnsureCert_unrecognized_load_error `{External} (h : HTTP)
    (defaultPath : string) (w : World) :
  Insecure (Config h) = false ->
  CertFile (Config h) = "" ->
  let r := EnsureCert h defaultPath w in
  let loaded :=
    (LoadX509KeyPair (defaultPath +:+ ".crt") (defaultPath +:+ ".key") w).1 in
  (forall e, loaded = Some e -> IsNotExist (Some e) = false ->
     result_of r = Wrap (Some e) ["unrecognized error reading certs"]
     /\ result_of r <> None
     /\ w_fs (world_of r) = w_fs w
     /\ Forall (fun ev => is_write ev = false /\ is_generate ev = false)
               (effects w (world_of r)))
  /\ (Exists (fun ev => is_write ev = true \/ is_generate ev = true)
             (effects w (world_of r)) ->
      IsNotExist loaded = true).
Proof.
  intros Hi Hc. cbv zeta. rewrite LoadX509KeyPair_run. cbn [fst].
  assert (quiet : Forall (fun ev => is_write ev = false
                                     /\ is_generate ev = false)
                    (fallback_prefix (w_fs w) defaultPath)).
  { unfold fallback_prefix. constructor; [split; reflexivity|].
    eapply Forall_impl; [apply load_reads_are_reads|].
    intros [] Hr; try discriminate; split; reflexivity. }
  split.
  - intros e L NE.
    rewrite (EnsureCert_unrecognized h defaultPath w e Hi Hc L NE).
    unfold result_of, receiver_of, world_of. cbn [fst snd w_fs].
    rewrite effects_extend. repeat split; [|exact quiet].
    rewrite Wrap_nil_iff. discriminate.
  - intros Hex.
    destruct (load_pair (w_fs w) (defaultPath +:+ ".crt")
                (defaultPath +:+ ".key")) as [e|] eqn:L.
    + destruct (IsNotExist (Some e)) eqn:NE; [reflexivity|exfalso].
      rewrite (EnsureCert_unrecognized h defaultPath w e Hi Hc L NE) in Hex.
      unfold world_of in Hex. cbn [snd] in Hex. rewrite effects_extend in Hex.
      apply Exists_exists in Hex as (ev & Hin & Hev).
      rewrite Forall_forall in quiet. destruct (quiet ev Hin) as [A B].
      destruct Hev; congruence.
    + exfalso.
      rewrite (EnsureCert_reuse h defaultPath w Hi Hc L) in Hex.
      unfold world_of in Hex. cbn [snd] in Hex. rewrite effects_extend in Hex.
      apply Exists_exists in Hex as (ev & Hin & Hev).
      rewrite Forall_forall in quiet. destruct (quiet ev Hin) as [A B].
      destruct Hev; congruence.
Qed.

Lemma EnsureCert_unrecognized_load_error_witness :
  Insecure (Config Demo.h_default) = false
  /\ CertFile (Config Demo.h_default) = ""
  /\ result_of (@EnsureCert Demo.ext Demo.h_default Demo.dp Demo.w_corrupt)
     = Some (TraceErr (TLSError "tls: failed to find any PEM data in input")
                      ["unrecognized error reading certs"])
  /\ w_fs (world_of (@EnsureCert Demo.ext Demo.h_default Demo.dp
                       Demo.w_corrupt))
     = w_fs Demo.w_corrupt.
Proof.
  split; [reflexivity|]. split; [reflexivity|].
  destruct (@EnsureCert_unrecognized_load_error Demo.ext Demo.h_default
              Demo.dp Demo.w_corrupt eq_refl eq_refl) as [T _].
  destruct (T (TLSError "tls: failed to find any PEM data in input")
              ltac:(vm_compute; reflexivity) eq_refl) as (R & _ & F & _).
  split; [exact R|exact F].
Defined.

(** ** EnsureCert: the generation branch *)


Section Fresh.
Context `{External}.
Variables (h : HTTP) (dp : string) (w : World).
Hypothesis Hi : Insecure (Config h) = false.
Hypothesis Hc : CertFile (Config h) = "".
Hypothesis no_crt : fs_files (w_fs w) !! (dp +:+ ".crt") = None.
Hypothesis no_key : fs_files (w_fs w) !! (dp +:+ ".key") = None.


Lemma load_reads_absent :
  load_reads (w_fs w) (dp +:+ ".crt") (dp +:+ ".key")
  = [EvReadFile (dp +:+ ".crt")].
Proof. unfold load_reads, read_fs. rewrite no_crt. reflexivity. Qed.


End Fresh.

(** C3, as stated, fails where the files cannot be created.  The data
    directory is missing: no file is present at the candidate paths, the
    load fails with a does-not-exist error, the pair is generated, and
    [ioutil.WriteFile] of the key fails; [EnsureCert] returns that error
    and no file has been written. *)
Lemma EnsureCert_absent_can_fail :
  Insecure (Config Demo.h_default) = false
  /\ CertFile (Config Demo.h_default) = ""
  /\ fs_files (w_fs Demo.w_nodir) !! (Demo.dp +:+ ".crt") = None
  /\ fs_files (w_fs Demo.w_nodir) !! (Demo.dp +:+ ".key") = None
  /\ result_of (@EnsureCert Demo.ext Demo.h_default Demo.dp Demo.w_nodir)
     = Some (TraceErr
               (PathError "open" "/var/lib/teleport/plugins/slackbot/cert.key"
                          ENOENT)
               ["error writing key PEM"])
  /\ fs_files (w_fs (world_of (@EnsureCert Demo.ext Demo.h_default Demo.dp
                                 Demo.w_nodir)))
     = ∅.
Proof. vm_compute. repeat split. Qed.

(** C3, amended.  With [Insecure] unset, [CertFile] empty and no file at
    the candidate paths, so that the load fails with a does-not-exist
    error, provided [GenerateSelfSignedCert] succeeds and both writes
    succeed, [EnsureCert] returns [nil].  It asked the generator for a
    certificate for the configured host name and ["localhost"], so that for
    any notion [covers] of a certificate covering a name that the
    generator honours, the certificate on disk covers both.  The file
    system differs from the initial one in exactly two new files, the key
    at [defaultPath + ".key"] and the certificate at
    [defaultPath + ".crt"], holding the generated material; both writes
    ask for mode [0600], and neither file has a permission bit outside it.
    The events of the call are the warning, the read that found nothing,
    the second warning, the generation and the two writes. *)
Theorem EnsureCert_generates_when_absent `{External} (h : HTTP)
    (defaultPath : string) (w : World) (e0 : GoError)
    (creds : TLSCredentials) (fs1 fs2 : FS)
    (covers : bytes -> string -> Prop) :
  Insecure (Config h) = false ->
  CertFile (Config h) = "" ->
  fs_files (w_fs w) !! (defaultPath +:+ ".crt") = None ->
  fs_files (w_fs w) !! (defaultPath +:+ ".key") = None ->
  (LoadX509KeyPair (defaultPath +:+ ".crt") (defaultPath +:+ ".key") w).1
    = Some e0 ->
  IsNotExist (Some e0) = true ->
  (forall seed hosts c,
     GenerateSelfSignedCert seed hosts = inr c ->
     forall name, In name hosts -> covers (Cert c) name) ->
  GenerateSelfSignedCert (w_entropy w) [Hostname (Config h); "localhost"]
    = inr creds ->
  write_fs (w_fs w) (defaultPath +:+ ".key") (PrivateKey creds) perm_0600
    = (None, fs1) ->
  write_fs fs1 (defaultPath +:+ ".crt") (Cert creds) perm_0600
    = (None, fs2) ->
  let r := EnsureCert h defaultPath w in
  let key := defaultPath +:+ ".key" in
  let crt := defaultPath +:+ ".crt" in
  result_of r = None
  /\ w_fs (world_of r) = fs2
  /\ (exists fk fc,
        fs_files fs2 !! key = Some fk
        /\ fs_files fs2 !! crt = Some fc
        /\ f_data fk = PrivateKey creds
        /\ f_data fc = Cert creds
        /\ covers (f_data fc) (Hostname (Config h))
        /\ covers (f_data fc) "localhost"
        /\ N.ldiff (f_mode fk) perm_0600 = 0%N
        /\ N.ldiff (f_mode fc) perm_0600 = 0%N)
  /\ N.land perm_0600 63 = 0%N
  /\ size (fs_files fs2) = size (fs_files (w_fs w)) + 2
  /\ (forall p, p <> crt -> p <> key ->
        fs_files fs2 !! p = fs_files (w_fs w) !! p)
  /\ effects w (world_of r)
     = [EvLog LvlWarning
          "No TLS Keys provided, using self signed certificate.";
        EvReadFile crt;
        EvLog LvlWarning
          ("Generating self signed key and cert to "
             +:+ key +:+ " " +:+ crt +:+ ".");
        EvGenerate [Hostname (Config h); "localhost"];
        EvWriteFile key (PrivateKey creds) perm_0600;
        EvWriteFile crt (Cert creds) perm_0600].
Proof.
  intros Hi Hc Ncrt Nkey L NE Contract G W1 W2. cbv zeta.
  rewrite LoadX509KeyPair_run in L. cbn [fst] in L.
  rewrite (EnsureCert_generate h defaultPath w e0 Hi Hc L NE). cbv zeta.
  rewrite G, W1, W2.
  unfold result_of, world_of. cbn [fst snd w_fs].
  assert (Hne : defaultPath +:+ ".key" <> defaultPath +:+ ".crt")
    by (intros E; exact (crt_key_distinct defaultPath (eq_sym E))).
  apply write_fs_success in W1 as (m1 & F1 & _ & M1).
  assert (Ncrt1 : fs_files fs1 !! (defaultPath +:+ ".crt") = None)
    by (rewrite F1, lookup_insert_ne by exact Hne; exact Ncrt).
  apply write_fs_success in W2 as (m2 & F2 & _ & M2).
  rewrite (M1 Nkey) in F1. rewrite (M2 Ncrt1) in F2.
  split; [reflexivity|]. split; [reflexivity|]. split; [|split; [|split]].
  - exists (mkFile (PrivateKey creds) perm_0600),
           (mkFile (Cert creds) perm_0600).
    rewrite F2, F1. cbn [f_data f_mode].
    split; [rewrite lookup_insert_ne by congruence; apply lookup_insert_eq|].
    split; [apply lookup_insert_eq|].
    split; [reflexivity|]. split; [reflexivity|].
    split; [apply (Contract _ _ _ G); cbn; auto|].
    split; [apply (Contract _ _ _ G); cbn; auto|].
    split; reflexivity.
  - reflexivity.
  - rewrite F2, F1. rewrite map_size_insert_None.
    + rewrite map_size_insert_None by exact Nkey. lia.
    + rewrite lookup_insert_ne by exact Hne. exact Ncrt.
  - split.
    + intros p P1 P2. rewrite F2, F1.
      rewrite !lookup_insert_ne by congruence. reflexivity.
    + rewrite <- (app_assoc (w_trace w)), effects_extend.
      unfold fallback_prefix, generate_events.
      rewrite (load_reads_absent defaultPath w Ncrt). reflexivity.
Qed.

Lemma EnsureCert_generates_when_absent_witness :
  result_of (@EnsureCert Demo.ext Demo.h_default Demo.dp Demo.w_empty) = None
  /\ size (fs_files (w_fs (world_of (@EnsureCert Demo.ext Demo.h_default
                                       Demo.dp Demo.w_empty))))
     = 2.
Proof.
  assert (Contract : forall seed hosts c,
             @GenerateSelfSignedCert Demo.ext seed hosts = inr c ->
             forall name, In name hosts -> Demo.covers (Cert c) name).
  { intros seed hosts c G name Hn. injection G as <-.
    exists seed, hosts. split; [reflexivity|exact Hn]. }
  set (creds :=
         mkCreds (Byte.x50 :: Demo.body 0 ["bot.example.com"; "localhost"])
                 (Byte.x4b :: Demo.body 0 ["bot.example.com"; "localhost"])
                 (Byte.x43 :: Demo.body 0 ["bot.example.com"; "localhost"])).
  set (fs1 := (write_fs (w_fs Demo.w_empty) (Demo.dp +:+ ".key")
                 (PrivateKey creds) perm_0600).2).
  set (fs2 := (write_fs fs1 (Demo.dp +:+ ".crt") (Cert creds)
                 perm_0600).2).
  destruct (@EnsureCert_generates_when_absent Demo.ext Demo.h_default Demo.dp
              Demo.w_empty (PathError "open" (Demo.dp +:+ ".crt") ENOENT)
              creds fs1 fs2 Demo.covers
              eq_refl eq_refl eq_refl eq_refl
              ltac:(vm_compute; reflexivity) eq_refl Contract eq_refl
              ltac:(vm_compute; reflexivity) ltac:(vm_compute; reflexivity))
    as (R & F & _ & _ & S & _).
  split; [exact R|]. rewrite F. exact S.
Defined.

(** C10. In the generation branch the key file is written before the
    certificate file.  When the key write succeeds and the certificate
    write fails, [EnsureCert] returns the wrapped write error (not [nil]);
    the file system is the one the key write left, so the key file is on
    disk with the generated key; and [CertFile] / [KeyFile] of the receiver
    stay set to the candidate paths: nothing is rolled back. *)
Theorem EnsureCert_cert_write_fails `{External} (h : HTTP)
    (defaultPath : string) (w : World) (e0 e2 : GoError)
    (creds : TLSCredentials) (fs1 fs1' : FS) :
  Insecure (Config h) = false ->
  CertFile (Config h) = "" ->
  (LoadX509KeyPair (defaultPath +:+ ".crt") (defaultPath +:+ ".key") w).1
    = Some e0 ->
  IsNotExist (Some e0) = true ->
  GenerateSelfSignedCert (w_entropy w) [Hostname (Config h); "localhost"]
    = inr creds ->
  write_fs (w_fs w) (defaultPath +:+ ".key") (PrivateKey creds) perm_0600
    = (None, fs1) ->
  write_fs fs1 (defaultPath +:+ ".crt") (Cert creds) perm_0600
    = (Some e2, fs1') ->
  let r := EnsureCert h defaultPath w in
  let key := defaultPath +:+ ".key" in
  let crt := defaultPath +:+ ".crt" in
  result_of r = Wrap (Some e2) ["error writing cert PEM"]
  /\ result_of r <> None
  /\ w_fs (world_of r) = fs1
  /\ (exists mode,
        fs_files (w_fs (world_of r)) !! key
        = Some (mkFile (PrivateKey creds) mode))
  /\ CertFile (Config (receiver_of r)) = crt
  /\ KeyFile (Config (receiver_of r)) = key
  /\ (exists before,
        effects w (world_of r)
        = before ++ [EvWriteFile key (PrivateKey creds) perm_0600;
                     EvWriteFile crt (Cert creds) perm_0600]
        /\ Forall (fun ev => is_write ev = false) before).
Proof.
  intros Hi Hc L NE G W1 W2. cbv zeta.
  rewrite LoadX509KeyPair_run in L. cbn [fst] in L.
  rewrite (EnsureCert_generate h defaultPath w e0 Hi Hc L NE). cbv zeta.
  rewrite G, W1, W2.
  unfold result_of, receiver_of, world_of. cbn [fst snd w_fs].
  split; [reflexivity|]. split; [rewrite Wrap_nil_iff; discriminate|].
  split; [reflexivity|]. split; [|split; [reflexivity|split; [reflexivity|]]].
  - apply write_fs_success in W1 as (mode & F & _).
    exists mode. rewrite F. apply lookup_insert_eq.
  - exists (fallback_prefix (w_fs w) defaultPath
              ++ generate_events h defaultPath).
    rewrite <- (app_assoc (w_trace w)), effects_extend.
    split; [reflexivity|].
    apply Forall_app. split.
    + unfold fallback_prefix. constructor; [reflexivity|].
      eapply Forall_impl; [apply load_reads_are_reads|].
      intros [] Hr; try discriminate; reflexivity.
    + repeat constructor.
Qed.

Lemma EnsureCert_cert_write_fails_witness :
  result_of (@EnsureCert Demo.ext Demo.h_default Demo.dp Demo.w_full)
  = Some (TraceErr
            (PathError "open" "/var/lib/teleport/plugins/slackbot/cert.crt"
                       ENOSPC)
            ["error writing cert PEM"])
  /\ (exists mode,
        fs_files (w_fs (world_of (@EnsureCert Demo.ext Demo.h_default Demo.dp
                                    Demo.w_full)))
          !! (Demo.dp +:+ ".key")
        = Some (mkFile
                  (Byte.x4b
                     :: Demo.body 0 ["bot.example.com"; "localhost"]) mode)).
Proof.
  destruct (@EnsureCert_cert_write_fails Demo.ext Demo.h_default Demo.dp
              Demo.w_full
              (PathError "open" (Demo.dp +:+ ".crt") ENOENT)
              (PathError "open" (Demo.dp +:+ ".crt") ENOSPC)
              (mkCreds
                 (Byte.x50 :: Demo.body 0 ["bot.example.com"; "localhost"])
                 (Byte.x4b :: Demo.body 0 ["bot.example.com"; "localhost"])
                 (Byte.x43 :: Demo.body 0 ["bot.example.com"; "localhost"]))
              (mkFS {[ Demo.dp +:+ ".key" :=
                         mkFile (Byte.x4b :: Demo.body 0
                                   ["bot.example.com"; "localhost"])
                                perm_0600 ]}
                    (fs_nocreate (w_fs Demo.w_full)))
              (mkFS {[ Demo.dp +:+ ".key" :=
                         mkFile (Byte.x4b :: Demo.body 0
                                   ["bot.example.com"; "localhost"])
                                perm_0600 ]}
                    (fs_nocreate (w_fs Demo.w_full)))
              eq_refl eq_refl ltac:(vm_compute; reflexivity) eq_refl eq_refl
              ltac:(vm_compute; reflexivity) ltac:(vm_compute; reflexivity))
    as (R & _ & _ & K & _).
  split; [exact R|exact K].
Defined.

(** The receiver a call returns. *)
Lemma EnsureCert_receiver `{External} (h : HTTP) (dp : string) (w : World) :
  receiver_of (EnsureCert h dp w)
  = if Insecure (Config h) then h
    else if String.eqb (CertFile (Config h)) "" then with_default_paths h dp
    else h.
Proof.
  destruct (Insecure (Config h)) eqn:Hi.
  - rewrite (EnsureCert_insecure h dp w Hi). reflexivity.
  - destruct (String.eqb (CertFile (Config h)) "") eqn:E.
    + apply String.eqb_eq in E.
      destruct (load_pair (w_fs w) (dp +:+ ".crt") (dp +:+ ".key"))
        as [e|] eqn:L.
      * destruct (IsNotExist (Some e)) eqn:NE.
        -- rewrite (EnsureCert_generate h dp w e Hi E L NE). cbv zeta.
           destruct (GenerateSelfSignedCert _ _) as [m|creds]; [reflexivity|].
           destruct (write_fs (w_fs w) _ _ _) as [[e1|] fs1]; [reflexivity|].
           destruct (write_fs fs1 _ _ _) as [[e2|] fs2]; reflexivity.
        -- rewrite (EnsureCert_unrecognized h dp w e Hi E L NE). reflexivity.
      * rewrite (EnsureCert_reuse h dp w Hi E L). reflexivity.
    + apply String.eqb_neq in E.
      rewrite (EnsureCert_explicit h dp w Hi E). reflexivity.
Qed.

Lemma crt_nonempty (p : string) : p +:+ ".crt" <> "".
Proof. destruct p; discriminate. Qed.

(** ** EnsureCert: a second call after a generation *)




(** ** EnsureCert: what a success stands for *)

(** C8, as stated, fails on the generation branch.  On an empty data
    directory [EnsureCert] returns [nil] and the last things it does are
    the two writes: no read of the persisted files follows them, so the
    pair it just wrote is never loaded and parsed. *)
Lemma EnsureCert_generated_pair_not_reloaded :
  let r := @EnsureCert Demo.ext Demo.h_default Demo.dp Demo.w_empty in
  result_of r = None
  /\ effects Demo.w_empty (world_of r)
     = [EvLog LvlWarning
          "No TLS Keys provided, using self signed certificate.";
        EvReadFile (Demo.dp +:+ ".crt");
        EvLog LvlWarning
          ("Generating self signed key and cert to "
             +:+ (Demo.dp +:+ ".key") +:+ " " +:+ (Demo.dp +:+ ".crt")
             +:+ ".");
        EvGenerate ["bot.example.com"; "localhost"];
        EvWriteFile (Demo.dp +:+ ".key")
          (Byte.x4b :: Demo.body 0 ["bot.example.com"; "localhost"])
          perm_0600;
        EvWriteFile (Demo.dp +:+ ".crt")
          (Byte.x43 :: Demo.body 0 ["bot.example.com"; "localhost"])
          perm_0600]
  /\ ~ (exists before,
          effects Demo.w_empty (world_of r)
          = before ++ load_reads (w_fs (world_of r))
                        (CertFile (Config (receiver_of r)))
                        (KeyFile (Config (receiver_of r)))).
Proof.
  cbv zeta. split; [vm_compute; reflexivity|].
  split; [vm_compute; reflexivity|].
  intros [before E]. apply (f_equal (@rev Event)) in E.
  rewrite rev_app_distr in E. vm_compute in E. discriminate E.
Qed.

(** The verification the code leaves out would matter for a generator
    that breaks its promise: with a generated key that does not match the
    certificate, [EnsureCert] still returns [nil], and the pair it left on
    disk does not load. *)
Lemma EnsureCert_trusts_generator :
  let r := @EnsureCert Demo.ext_mismatch Demo.h_default Demo.dp
             Demo.w_empty in
  result_of r = None
  /\ @load_pair Demo.ext_mismatch (w_fs (world_of r))
       (CertFile (Config (receiver_of r))) (KeyFile (Config (receiver_of r)))
     = Some (TLSError "tls: private key does not match public key").
Proof. vm_compute. split; reflexivity. Qed.

(** C8, amended.  With [Insecure] unset, a [nil] from [EnsureCert] stands
    for one of two things.  Either the pair at [CertFile] / [KeyFile] of
    the returned receiver was loaded and parsed without error by this call,
    which then wrote and generated nothing; or [CertFile] was empty and the
    call generated a pair and wrote it, so that the key and certificate
    files hold exactly the generated key and certificate, the two writes
    being the last events of the call, with no load after them. *)
Theorem EnsureCert_success_paths `{External} (h : HTTP)
    (defaultPath : string) (w : World) :
  Insecure (Config h) = false ->
  let r := EnsureCert h defaultPath w in
  let h' := receiver_of r in
  result_of r = None ->
  ((LoadX509KeyPair (CertFile (Config h')) (KeyFile (Config h')) w).1 = None
   /\ w_fs (world_of r) = w_fs w
   /\ Forall (fun ev => is_write ev = false /\ is_generate ev = false)
             (effects w (world_of r)))
  \/ (CertFile (Config h) = ""
      /\ exists creds,
           GenerateSelfSignedCert (w_entropy w)
             [Hostname (Config h); "localhost"] = inr creds
           /\ f_data <$> fs_files (w_fs (world_of r)) !! KeyFile (Config h')
              = Some (PrivateKey creds)
           /\ f_data <$> fs_files (w_fs (world_of r)) !! CertFile (Config h')
              = Some (Cert creds)
           /\ exists before,
                effects w (world_of r)
                = before
                    ++ [EvWriteFile (KeyFile (Config h')) (PrivateKey creds)
                          perm_0600;
                        EvWriteFile (CertFile (Config h')) (Cert creds)
                          perm_0600]).
Proof.
  intros Hi. cbv zeta.
  assert (quiet : forall fs c k,
            Forall (fun ev => is_write ev = false /\ is_generate ev = false)
              (load_reads fs c k)).
  { intros fs c k. eapply Forall_impl; [apply load_reads_are_reads|].
    intros [] Hr; try discriminate; split; reflexivity. }
  rewrite (EnsureCert_receiver h defaultPath w), Hi.
  destruct (String.eqb (CertFile (Config h)) "") eqn:E.
  - apply String.eqb_eq in E.
    cbn [with_default_paths set_KeyFile set_CertFile Config CertFile KeyFile].
    rewrite LoadX509KeyPair_run. cbn [fst].
    destruct (load_pair (w_fs w) (defaultPath +:+ ".crt")
                (defaultPath +:+ ".key")) as [e|] eqn:L.
    + destruct (IsNotExist (Some e)) eqn:NE.
      * rewrite (EnsureCert_generate h defaultPath w e Hi E L NE). cbv zeta.
        destruct (GenerateSelfSignedCert _ _) as [m|creds]; [discriminate|].
        destruct (write_fs (w_fs w) _ _ _) as [[e1|] fs1] eqn:W1.
        { unfold result_of. cbn [fst]. rewrite Wrap_nil_iff. discriminate. }
        destruct (write_fs fs1 _ _ _) as [[e2|] fs2] eqn:W2.
        { unfold result_of. cbn [fst]. rewrite Wrap_nil_iff. discriminate. }
        intros _. right. split; [exact E|]. exists creds.
        unfold world_of. cbn [snd w_fs].
        apply write_fs_success in W1 as (m1 & F1 & _).
        apply write_fs_success in W2 as (m2 & F2 & _).
        split; [reflexivity|]. rewrite F2, F1. split; [|split].
        -- rewrite lookup_insert_ne by apply crt_key_distinct.
           rewrite lookup_insert_eq. reflexivity.
        -- rewrite lookup_insert_eq. reflexivity.
        -- eexists. rewrite <- (app_assoc (w_trace w)), effects_extend.
           reflexivity.
      * rewrite (EnsureCert_unrecognized h defaultPath w e Hi E L NE).
        unfold result_of. cbn [fst]. rewrite Wrap_nil_iff. discriminate.
    + rewrite (EnsureCert_reuse h defaultPath w Hi E L).
      intros _. left. unfold world_of. cbn [snd w_fs].
      rewrite effects_extend. repeat split.
      unfold fallback_prefix. constructor; [split; reflexivity|apply quiet].
  - apply String.eqb_neq in E.
    rewrite (EnsureCert_explicit h defaultPath w Hi E), LoadX509KeyPair_run.
    unfold result_of, world_of. cbn [fst snd w_fs].
    intros L. left. rewrite effects_extend. repeat split; [exact L|].
    apply quiet.
Qed.

Lemma EnsureCert_success_paths_witness :
  Insecure (Config Demo.h_explicit) = false
  /\ result_of (@EnsureCert Demo.ext Demo.h_explicit Demo.dp Demo.w_good)
     = None
  /\ ((@LoadX509KeyPair Demo.ext "/etc/bot.crt" "/etc/bot.key" Demo.w_good).1
        = None
      \/ CertFile (Config Demo.h_explicit) = "").
Proof.
  assert (R : result_of (@EnsureCert Demo.ext Demo.h_explicit Demo.dp
                           Demo.w_good) = None)
    by (vm_compute; reflexivity).
  split; [reflexivity|]. split; [exact R|].
  destruct (@EnsureCert_success_paths Demo.ext Demo.h_explicit Demo.dp
              Demo.w_good eq_refl R)
    as [(L & _) | (C & _)].
  - left. exact L.
  - right. exact C.
Defined.

(** ** The configuration *)

(** C9, as stated, fails: [EnsureCert] assigns [h.CertFile] and
    [h.KeyFile].  A wrapper built by [NewHTTP] with no paths has them set
    to the candidate paths after the call. *)
Lemma EnsureCert_sets_paths :
  let h' := receiver_of (@EnsureCert Demo.ext Demo.h_default Demo.dp
                           Demo.w_empty) in
  CertFile (Config Demo.h_default) = ""
  /\ KeyFile (Config Demo.h_default) = ""
  /\ CertFile (Config h') = "/var/lib/teleport/plugins/slackbot/cert.crt"
  /\ KeyFile (Config h') = "/var/lib/teleport/plugins/slackbot/cert.key"
  /\ Config h' <> Config Demo.h_default.
Proof.
  cbv zeta. vm_compute. repeat split. discriminate.
Qed.

(** C9, amended.  The listen address, the host name and the insecure flag
    are never modified: [EnsureCert], [ListenAndServe] and [Shutdown] keep
    them.  [ListenAndServe] and [Shutdown] keep the whole configuration.
    [EnsureCert] keeps the whole configuration when [Insecure] is set or
    [CertFile] is not empty; with [Insecure] unset and [CertFile] empty it
    sets [CertFile] to [defaultPath + ".crt"] and [KeyFile] to
    [defaultPath + ".key"]. *)
Theorem Config_frame `{External} (h : HTTP) (defaultPath : string)
    (w : World) (ctx : Context) (t : Termination) (outcome : error) :
  let h' := receiver_of (EnsureCert h defaultPath w) in
  (Listen (Config h') = Listen (Config h)
   /\ Hostname (Config h') = Hostname (Config h)
   /\ Insecure (Config h') = Insecure (Config h))
  /\ (Insecure (Config h) = true \/ CertFile (Config h) <> "" ->
      Config h' = Config h)
  /\ (Insecure (Config h) = false -> CertFile (Config h) = "" ->
      CertFile (Config h') = defaultPath +:+ ".crt"
      /\ KeyFile (Config h') = defaultPath +:+ ".key")
  /\ Config (receiver_of (ListenAndServe h ctx t w)) = Config h
  /\ Config (receiver_of (Shutdown h ctx outcome w)) = Config h.
Proof.
  cbv zeta. rewrite (EnsureCert_receiver h defaultPath w).
  split; [|split; [|split; [|split]]].
  - destruct h as [[l k c hn i] r s]. cbn [Config Insecure CertFile].
    destruct i; [repeat split|].
    destruct (String.eqb c ""); repeat split.
  - intros [Hi | Hc].
    + rewrite Hi. reflexivity.
    + apply String.eqb_neq in Hc. rewrite Hc.
      destruct (Insecure (Config h)); reflexivity.
  - intros -> ->. split; reflexivity.
  - destruct (ListenAndServe_run h ctx t w) as [evs ->]. reflexivity.
  - reflexivity.
Qed.

(** ** Further properties of the two methods *)

(** X2. [ListenAndServe] stores in the server the handler wrapper around
    the router whose base context is the scope it was given; the first
    thing it does is log the mode and the listen address, the last thing,
    whatever the serve call returned, is log the termination (the deferred
    call); in between it makes the serve call that [Insecure] selects, the
    TLS one with [CertFile] and [KeyFile], and not the other. *)
Theorem ListenAndServe_effects (h : HTTP) (ctx : Context) (t : Termination)
    (w : World) :
  let r := ListenAndServe h ctx t w in
  let evs := effects w (world_of r) in
  Handler (server (receiver_of r))
    = Some (newHttpHandlerWrapper ctx (router h))
  /\ head evs
     = Some (EvLog LvlInfo
               ((if Insecure (Config h)
                 then "Starting insecure HTTP server on "
                 else "Starting secure HTTPS server on ")
                  +:+ Listen (Config h)))
  /\ last evs = Some (EvLog LvlInfo "HTTP server terminated")
  /\ (if Insecure (Config h)
      then In (EvListenAndServe (Addr (server h))) evs
           /\ forall a c k, ~ In (EvListenAndServeTLS a c k) evs
      else In (EvListenAndServeTLS (Addr (server h)) (CertFile (Config h))
                                   (KeyFile (Config h))) evs
           /\ forall a, ~ In (EvListenAndServe a) evs).
Proof.
  cbv zeta.
  assert (E : effects w (world_of (ListenAndServe h ctx t w))
              = if Insecure (Config h)
                then [EvLog LvlInfo
                        ("Starting insecure HTTP server on "
                           +:+ Listen (Config h));
                      EvListenAndServe (Addr (server h));
                      EvLog LvlInfo "HTTP server terminated"]
                else [EvLog LvlInfo
                        ("Starting secure HTTPS server on "
                           +:+ Listen (Config h));
                      EvListenAndServeTLS (Addr (server h))
                        (CertFile (Config h)) (KeyFile (Config h));
                      EvLog LvlInfo "HTTP server terminated"]).
  { unfold ListenAndServe, server_ListenAndServe, server_ListenAndServeTLS,
      log, emit, mbind, mret, IO_bind, IO_ret, world_of, effects.
    cbn [set_Handler Config server Addr].
    destruct (Insecure (Config h));
      cbn [fst snd w_fs w_entropy w_trace];
      rewrite <- !app_assoc; apply drop_app_length. }
  rewrite E. split.
  { destruct (ListenAndServe_run h ctx t w) as [evs ->]. reflexivity. }
  destruct (Insecure (Config h)); cbn [head last].
  - split; [reflexivity|]. split; [reflexivity|]. split.
    + cbn. auto.
    + intros a c k [F|[F|[F|[]]]]; discriminate F.
  - split; [reflexivity|]. split; [reflexivity|]. split.
    + cbn. auto.
    + intros a [F|[F|[F|[]]]]; discriminate F.
Qed.

(** X1. In the fallback branch a certificate file whose key file is
    missing is not kept: when a file is present at
    [defaultPath + ".crt"] and the load fails with a does-not-exist error,
    and the generator and both writes succeed, [EnsureCert] returns [nil]
    and the certificate file holds the generated certificate in place of
    what it held, under the mode it had; the key file holds the generated
    key. *)
Theorem EnsureCert_missing_key_overwrites_cert `{External} (h : HTTP)
    (defaultPath : string) (w : World) (old : File) (e0 : GoError)
    (creds : TLSCredentials) (fs1 fs2 : FS) :
  Insecure (Config h) = false ->
  CertFile (Config h) = "" ->
  fs_files (w_fs w) !! (defaultPath +:+ ".crt") = Some old ->
  (LoadX509KeyPair (defaultPath +:+ ".crt") (defaultPath +:+ ".key") w).1
    = Some e0 ->
  IsNotExist (Some e0) = true ->
  GenerateSelfSignedCert (w_entropy w) [Hostname (Config h); "localhost"]
    = inr creds ->
  write_fs (w_fs w) (defaultPath +:+ ".key") (PrivateKey creds) perm_0600
    = (None, fs1) ->
  write_fs fs1 (defaultPath +:+ ".crt") (Cert creds) perm_0600
    = (None, fs2) ->
  let r := EnsureCert h defaultPath w in
  result_of r = None
  /\ fs_files (w_fs (world_of r)) !! (defaultPath +:+ ".crt")
     = Some (mkFile (Cert creds) (f_mode old))
  /\ f_data <$> fs_files (w_fs (world_of r)) !! (defaultPath +:+ ".key")
     = Some (PrivateKey creds).
Proof.
  intros Hi Hc Lc L NE G W1 W2. cbv zeta.
  rewrite LoadX509KeyPair_run in L. cbn [fst] in L.
  rewrite (EnsureCert_generate h defaultPath w e0 Hi Hc L NE). cbv zeta.
  rewrite G, W1, W2.
  unfold result_of, world_of. cbn [fst snd w_fs].
  assert (Hne : defaultPath +:+ ".key" <> defaultPath +:+ ".crt")
    by (intros E; exact (crt_key_distinct defaultPath (eq_sym E))).
  apply write_fs_success in W1 as (m1 & F1 & _).
  assert (Lc1 : fs_files fs1 !! (defaultPath +:+ ".crt") = Some old)
    by (rewrite F1, lookup_insert_ne by exact Hne; exact Lc).
  rewrite (write_fs_success_existing _ _ _ _ _ _ Lc1 W2), F1.
  split; [reflexivity|]. split.
  - apply lookup_insert_eq.
  - rewrite lookup_insert_ne by congruence.
    rewrite lookup_insert_eq. reflexivity.
Qed.

Lemma EnsureCert_missing_key_overwrites_cert_witness :
  fs_files (w_fs Demo.w_orphan) !! (Demo.dp +:+ ".crt")
  = Some (mkFile (Demo.b "garbage") perm_0600)
  /\ fs_files (w_fs (world_of (@EnsureCert Demo.ext Demo.h_default Demo.dp
                                 Demo.w_orphan)))
       !! (Demo.dp +:+ ".crt")
     = Some (mkFile
               (Byte.x43 :: Demo.body 0 ["bot.example.com"; "localhost"])
               perm_0600).
Proof.
  split; [vm_compute; reflexivity|].
  set (creds :=
         mkCreds (Byte.x50 :: Demo.body 0 ["bot.example.com"; "localhost"])
                 (Byte.x4b :: Demo.body 0 ["bot.example.com"; "localhost"])
                 (Byte.x43 :: Demo.body 0 ["bot.example.com"; "localhost"])).
  set (fs1 := (write_fs (w_fs Demo.w_orphan) (Demo.dp +:+ ".key")
                 (PrivateKey creds) perm_0600).2).
  set (fs2 := (write_fs fs1 (Demo.dp +:+ ".crt") (Cert creds)
                 perm_0600).2).
  destruct (@EnsureCert_missing_key_overwrites_cert Demo.ext Demo.h_default
              Demo.dp Demo.w_orphan (mkFile (Demo.b "garbage") perm_0600)
              (PathError "open" (Demo.dp +:+ ".key") ENOENT) creds fs1 fs2
              eq_refl eq_refl ltac:(vm_compute; reflexivity)
              ltac:(vm_compute; reflexivity) eq_refl eq_refl
              ltac:(vm_compute; reflexivity) ltac:(vm_compute; reflexivity))
    as (_ & C & _).
  exact C.
Defined.

(** X3. A failure of [GenerateSelfSignedCert] is returned inside a
    [trace.Wrap] wrapper; nothing is written. *)
Theorem EnsureCert_generation_fails `{External} (h : HTTP)
    (defaultPath : string) (w : World) (e0 : GoError) (msg : string) :
  Insecure (Config h) = false ->
  CertFile (Config h) = "" ->
  (LoadX509KeyPair (defaultPath +:+ ".crt") (defaultPath +:+ ".key") w).1
    = Some e0 ->
  IsNotExist (Some e0) = true ->
  GenerateSelfSignedCert (w_entropy w) [Hostname (Config h); "localhost"]
    = inl msg ->
  let r := EnsureCert h defaultPath w in
  result_of r = Some (TraceErr (GenError msg) [])
  /\ w_fs (world_of r) = w_fs w
  /\ Forall (fun ev => is_write ev = false) (effects w (world_of r)).
Proof.
  intros Hi Hc L NE G. cbv zeta.
  rewrite LoadX509KeyPair_run in L. cbn [fst] in L.
  rewrite (EnsureCert_generate h defaultPath w e0 Hi Hc L NE). cbv zeta.
  rewrite G. unfold result_of, world_of. cbn [fst snd w_fs].
  split; [reflexivity|]. split; [reflexivity|].
  rewrite effects_extend. apply Forall_app. split.
  - unfold fallback_prefix. constructor; [reflexivity|].
    eapply Forall_impl; [apply load_reads_are_reads|].
    intros [] Hr; try discriminate; reflexivity.
  - repeat constructor.
Qed.

Lemma EnsureCert_generation_fails_witness :
  result_of (@EnsureCert Demo.ext_nogen Demo.h_default Demo.dp Demo.w_empty)
  = Some (TraceErr (GenError "crypto/rsa: no entropy") []).
Proof.
  destruct (@EnsureCert_generation_fails Demo.ext_nogen Demo.h_default
              Demo.dp Demo.w_empty
              (PathError "open" (Demo.dp +:+ ".crt") ENOENT)
              "crypto/rsa: no entropy"
              eq_refl eq_refl ltac:(vm_compute; reflexivity) eq_refl eq_refl)
    as (R & _).
  exact R.
Defined.

(** X4. A failed key write is returned wrapped with its own message, and
    the certificate write is not attempted: the key write is the only
    write of the call, and every path other than the key's is as it
    was. *)
Theorem EnsureCert_key_write_fails `{External} (h : HTTP)
    (defaultPath : string) (w : World) (e0 e1 : GoError)
    (creds : TLSCredentials) (fs' : FS) :
  Insecure (Config h) = false ->
  CertFile (Config h) = "" ->
  (LoadX509KeyPair (defaultPath +:+ ".crt") (defaultPath +:+ ".key") w).1
    = Some e0 ->
  IsNotExist (Some e0) = true ->
  GenerateSelfSignedCert (w_entropy w) [Hostname (Config h); "localhost"]
    = inr creds ->
  write_fs (w_fs w) (defaultPath +:+ ".key") (PrivateKey creds) perm_0600
    = (Some e1, fs') ->
  let r := EnsureCert h defaultPath w in
  result_of r = Wrap (Some e1) ["error writing key PEM"]
  /\ result_of r <> None
  /\ List.filter is_write (effects w (world_of r))
     = [EvWriteFile (defaultPath +:+ ".key") (PrivateKey creds) perm_0600]
  /\ (forall p, p <> defaultPath +:+ ".key" ->
        fs_files (w_fs (world_of r)) !! p = fs_files (w_fs w) !! p).
Proof.
  intros Hi Hc L NE G W1. cbv zeta.
  rewrite LoadX509KeyPair_run in L. cbn [fst] in L.
  rewrite (EnsureCert_generate h defaultPath w e0 Hi Hc L NE). cbv zeta.
  rewrite G, W1. unfold result_of, world_of. cbn [fst snd w_fs].
  split; [reflexivity|]. split; [rewrite Wrap_nil_iff; discriminate|].
  split; [|reflexivity].
  rewrite <- (app_assoc (w_trace w)), effects_extend.
  unfold fallback_prefix, generate_events. rewrite !List.filter_app.
  cbn [List.filter is_write app].
  assert (Q : forall fs c k, List.filter is_write (load_reads fs c k) = []).
  { intros fs c k. unfold load_reads. destruct (read_fs fs c); reflexivity. }
  rewrite Q. reflexivity.
Qed.

Lemma EnsureCert_key_write_fails_witness :
  result_of (@EnsureCert Demo.ext Demo.h_default Demo.dp Demo.w_nodir)
  = Some (TraceErr (PathError "open" (Demo.dp +:+ ".key") ENOENT)
                   ["error writing key PEM"]).
Proof.
  destruct (@EnsureCert_key_write_fails Demo.ext Demo.h_default Demo.dp
              Demo.w_nodir
              (PathError "open" (Demo.dp +:+ ".crt") ENOENT)
              (PathError "open" (Demo.dp +:+ ".key") ENOENT)
              (mkCreds
                 (Byte.x50 :: Demo.body 0 ["bot.example.com"; "localhost"])
                 (Byte.x4b :: Demo.body 0 ["bot.example.com"; "localhost"])
                 (Byte.x43 :: Demo.body 0 ["bot.example.com"; "localhost"]))
              (w_fs Demo.w_nodir)
              eq_refl eq_refl ltac:(vm_compute; reflexivity) eq_refl eq_refl
              ltac:(vm_compute; reflexivity))
    as (R & _).
  exact R.
Defined.

(** ** Footprint and frame of EnsureCert *)

Lemma effects_of_extension (w w' : World) (evs : list Event) :
  w_trace w' = w_trace w ++ evs -> effects w w' = evs.
Proof. unfold effects. intros ->. apply drop_app_length. Qed.

Lemma load_pair_error_kind `{External} (fs : FS) (c k : string)
    (e : GoError) :
  load_pair fs c k = Some e ->
  (exists p errno, e = PathError "open" p errno /\ (p = c \/ p = k))
  \/ (exists m, e = TLSError m).
Proof.
  unfold load_pair, read_fs. intros E.
  destruct (fs_files fs !! c) as [fc|].
  - destruct (owner_readable fc).
    + destruct (fs_files fs !! k) as [fk|].
      * destruct (owner_readable fk).
        -- destruct (X509KeyPair _ _) as [m|]; [|discriminate].
           injection E as <-. right. eauto.
        -- injection E as <-. left. eauto.
      * injection E as <-. left. eauto.
    + injection E as <-. left. eauto.
  - injection E as <-. left. eauto.
Qed.

Lemma write_fs_error_kind (fs fs' : FS) (p : string) (d : bytes) (m : N)
    (e : GoError) :
  write_fs fs p d m = (Some e, fs') ->
  exists errno, e = PathError "open" p errno.
Proof.
  unfold write_fs. intros E.
  destruct (fs_files fs !! p) as [f|].
  - destruct (owner_writable f); [discriminate|].
    injection E as <- _. eauto.
  - destruct (fs_nocreate fs !! p) as [errno|]; [|discriminate].
    injection E as <- _. eauto.
Qed.

(** What one [ioutil.WriteFile] can do to the file system, whether it
    succeeds or not. *)
Lemma write_fs_frame (fs fs' : FS) (p : string) (d : bytes) (m : N)
    (o : error) :
  write_fs fs p d m = (o, fs') ->
  fs_nocreate fs' = fs_nocreate fs
  /\ (forall q, q <> p -> fs_files fs' !! q = fs_files fs !! q)
  /\ (forall q f, fs_files fs !! q = Some f ->
        exists f', fs_files fs' !! q = Some f' /\ f_mode f' = f_mode f).
Proof.
  intros E. destruct o as [e|].
  - apply write_fs_failure in E as ->. repeat split; eauto.
  - unfold write_fs in E. destruct (fs_files fs !! p) as [fp|] eqn:L.
    + destruct (owner_writable fp); [|discriminate].
      injection E as <-. cbn [fs_files fs_nocreate].
      split; [reflexivity|]. split.
      * intros q Hq. apply lookup_insert_ne. congruence.
      * intros q f Hf. destruct (decide (q = p)) as [->|Hq].
        -- rewrite lookup_insert_eq. eexists. split; [reflexivity|].
           cbn. congruence.
        -- rewrite lookup_insert_ne by congruence. eauto.
    + destruct (fs_nocreate fs !! p); [discriminate|].
      injection E as <-. cbn [fs_files fs_nocreate].
      split; [reflexivity|]. split.
      * intros q Hq. apply lookup_insert_ne. congruence.
      * intros q f Hf. destruct (decide (q = p)) as [->|Hq]; [congruence|].
        rewrite lookup_insert_ne by congruence. eauto.
Qed.

Lemma load_reads_paths (fs : FS) (c k : string) :
  Forall (fun ev => forall p, event_path ev = Some p -> p = c \/ p = k)
         (load_reads fs c k).
Proof.
  unfold load_reads.
  destruct (read_fs fs c);
    repeat (constructor; [cbn; intros p E; injection E as <-; auto|]);
    constructor.
Qed.

Lemma load_reads_no_generate (fs : FS) (c k : string) :
  List.filter is_generate (load_reads fs c k) = [].
Proof. unfold load_reads. destruct (read_fs fs c); reflexivity. Qed.

Lemma fallback_prefix_paths (fs : FS) (dp : string) :
  Forall (fun ev => forall p, event_path ev = Some p ->
                    p = dp +:+ ".crt" \/ p = dp +:+ ".key")
         (fallback_prefix fs dp).
Proof.
  unfold fallback_prefix. constructor; [discriminate|apply load_reads_paths].
Qed.

Lemma generate_events_paths (h : HTTP) (dp : string) :
  Forall (fun ev => forall p, event_path ev = Some p ->
                    p = dp +:+ ".crt" \/ p = dp +:+ ".key")
         (generate_events h dp).
Proof. unfold generate_events. repeat (constructor; [discriminate|]). constructor. Qed.

Lemma fallback_prefix_no_generate (fs : FS) (dp : string) :
  List.filter is_generate (fallback_prefix fs dp) = [].
Proof. unfold fallback_prefix. cbn. apply load_reads_no_generate. Qed.

(** Everything a call of [EnsureCert] does to the world, over all of its
    branches. *)
Lemma EnsureCert_summary `{External} (h : HTTP) (dp : string) (w : World) :
  let r := EnsureCert h dp w in
  let h' := receiver_of r in
  let gen :=
    negb (Insecure (Config h)) && String.eqb (CertFile (Config h)) ""
    && IsNotExist (load_pair (w_fs w) (dp +:+ ".crt") (dp +:+ ".key")) in
  exists evs,
    w_trace (world_of r) = w_trace w ++ evs
    /\ Forall (fun ev => forall p, event_path ev = Some p ->
                 p = CertFile (Config h') \/ p = KeyFile (Config h')) evs
    /\ fs_nocreate (w_fs (world_of r)) = fs_nocreate (w_fs w)
    /\ (forall p, p <> CertFile (Config h') -> p <> KeyFile (Config h') ->
          fs_files (w_fs (world_of r)) !! p = fs_files (w_fs w) !! p)
    /\ (forall p f, fs_files (w_fs w) !! p = Some f ->
          exists f', fs_files (w_fs (world_of r)) !! p = Some f'
                     /\ f_mode f' = f_mode f)
    /\ List.filter is_generate evs
       = (if gen then [EvGenerate [Hostname (Config h); "localhost"]] else [])
    /\ w_entropy (world_of r)
       = (if gen then S (w_entropy w) else w_entropy w).
Proof.
  cbv zeta. destruct (Insecure (Config h)) eqn:Hi.
  { rewrite (EnsureCert_insecure h dp w Hi). exists [].
    unfold world_of, receiver_of. cbn [fst snd negb andb].
    rewrite app_nil_r. repeat split; eauto. }
  destruct (String.eqb (CertFile (Config h)) "") eqn:Hc.
  2:{ apply String.eqb_neq in Hc.
      rewrite (EnsureCert_explicit h dp w Hi Hc). eexists.
      unfold world_of, receiver_of.
      cbn [fst snd negb andb w_fs w_entropy w_trace].
      split; [reflexivity|]. split; [apply load_reads_paths|].
      split; [reflexivity|]. split; [reflexivity|]. split; [eauto|].
      split; [apply load_reads_no_generate|reflexivity]. }
  pose proof Hc as Hc'. apply String.eqb_eq in Hc'.
  cbn [negb andb].
  destruct (load_pair (w_fs w) (dp +:+ ".crt") (dp +:+ ".key"))
    as [e|] eqn:L.
  2:{ rewrite (EnsureCert_reuse h dp w Hi Hc' L). eexists.
      unfold world_of, receiver_of.
      cbn [fst snd w_fs w_entropy w_trace IsNotExist with_default_paths
           set_KeyFile set_CertFile Config CertFile KeyFile].
      split; [reflexivity|]. split; [apply fallback_prefix_paths|].
      split; [reflexivity|]. split; [reflexivity|]. split; [eauto|].
      split; [apply fallback_prefix_no_generate|reflexivity]. }
  destruct (IsNotExist (Some e)) eqn:NE.
  2:{ rewrite (EnsureCert_unrecognized h dp w e Hi Hc' L NE). eexists.
      unfold world_of, receiver_of.
      cbn [fst snd w_fs w_entropy w_trace with_default_paths
           set_KeyFile set_CertFile Config CertFile KeyFile].
      split; [reflexivity|]. split; [apply fallback_prefix_paths|].
      split; [reflexivity|]. split; [reflexivity|]. split; [eauto|].
      split; [apply fallback_prefix_no_generate|reflexivity]. }
  rewrite (EnsureCert_generate h dp w e Hi Hc' L NE). cbv zeta.
  assert (G0 : forall tl,
             List.filter is_generate tl = [] ->
             List.filter is_generate
               (fallback_prefix (w_fs w) dp ++ generate_events h dp ++ tl)
             = [EvGenerate [Hostname (Config h); "localhost"]]).
  { intros tl Htl. rewrite !List.filter_app, fallback_prefix_no_generate, Htl.
    reflexivity. }
  destruct (GenerateSelfSignedCert _ _) as [m|creds].
  { exists (fallback_prefix (w_fs w) dp ++ generate_events h dp ++ []).
    unfold world_of, receiver_of.
    cbn [fst snd w_fs w_entropy w_trace with_default_paths
         set_KeyFile set_CertFile Config CertFile KeyFile].
    split; [rewrite app_nil_r; reflexivity|].
    split; [rewrite !Forall_app; split; [apply fallback_prefix_paths|];
            split; [apply generate_events_paths|constructor]|].
    split; [reflexivity|]. split; [reflexivity|]. split; [eauto|].
    split; [apply G0; reflexivity|reflexivity]. }
  destruct (write_fs (w_fs w) _ _ _) as [o1 fs1] eqn:W1.
  pose proof (write_fs_frame _ _ _ _ _ _ W1) as (N1 & O1 & K1).
  destruct o1 as [e1|].
  { exists (fallback_prefix (w_fs w) dp ++ generate_events h dp
              ++ [EvWriteFile (dp +:+ ".key") (PrivateKey creds) perm_0600]).
    unfold world_of, receiver_of.
    cbn [fst snd w_fs w_entropy w_trace with_default_paths
         set_KeyFile set_CertFile Config CertFile KeyFile].
    split; [trace_eq|].
    split; [rewrite !Forall_app; split; [apply fallback_prefix_paths|];
            split; [apply generate_events_paths|];
            constructor; [cbn; intros p E; injection E as <-; auto
                         |constructor]|].
    split; [reflexivity|]. split; [reflexivity|]. split; [eauto|].
    split; [apply G0; reflexivity|reflexivity]. }
  destruct (write_fs fs1 _ _ _) as [o2 fs2] eqn:W2.
  pose proof (write_fs_frame _ _ _ _ _ _ W2) as (N2 & O2 & K2).
  assert (Fp : Forall (fun ev => forall p, event_path ev = Some p ->
                         p = dp +:+ ".crt" \/ p = dp +:+ ".key")
                 (fallback_prefix (w_fs w) dp ++ generate_events h dp
                    ++ [EvWriteFile (dp +:+ ".key") (PrivateKey creds)
                          perm_0600;
                        EvWriteFile (dp +:+ ".crt") (Cert creds)
                          perm_0600])).
  { rewrite !Forall_app. split; [apply fallback_prefix_paths|].
    split; [apply generate_events_paths|].
    repeat (constructor; [cbn; intros p E; injection E as <-; auto|]).
    constructor. }
  destruct o2 as [e2|].
  { eexists. unfold world_of, receiver_of.
    cbn [fst snd w_fs w_entropy w_trace with_default_paths
         set_KeyFile set_CertFile Config CertFile KeyFile].
    split; [trace_eq|]. split; [exact Fp|].
    split; [exact N1|].
    split; [intros p P1 P2; apply O1; exact P2|].
    split; [exact K1|].
    split; [apply G0; reflexivity|reflexivity]. }
  eexists. unfold world_of, receiver_of.
  cbn [fst snd w_fs w_entropy w_trace with_default_paths
       set_KeyFile set_CertFile Config CertFile KeyFile].
  split; [trace_eq|]. split; [exact Fp|].
  split; [congruence|].
  split; [intros p P1 P2; rewrite (O2 p P1); apply O1; exact P2|].
  split.
  { intros p f Hf. destruct (K1 p f Hf) as (f1 & L1 & M1).
    destruct (K2 p f1 L1) as (f2 & L2 & M2). exists f2. split; congruence. }
  split; [apply G0; reflexivity|reflexivity].
Qed.

(** X5. Whatever branch it takes and whatever it returns, [EnsureCert]
    reads and writes only the two paths that the returned receiver names
    as [CertFile] and [KeyFile]: every file at another path is as it was,
    and so are the paths at which creation is refused. *)
Theorem EnsureCert_footprint `{External} (h : HTTP) (defaultPath : string)
    (w : World) :
  let r := EnsureCert h defaultPath w in
  let h' := receiver_of r in
  Forall (fun ev => forall p, event_path ev = Some p ->
            p = CertFile (Config h') \/ p = KeyFile (Config h'))
         (effects w (world_of r))
  /\ (forall p, p <> CertFile (Config h') -> p <> KeyFile (Config h') ->
        fs_files (w_fs (world_of r)) !! p = fs_files (w_fs w) !! p)
  /\ fs_nocreate (w_fs (world_of r)) = fs_nocreate (w_fs w).
Proof.
  cbv zeta.
  destruct (EnsureCert_summary h defaultPath w)
    as (evs & T & F & N & O & _).
  rewrite (effects_of_extension _ _ _ T). auto.
Qed.

(** X6. [EnsureCert] never removes a file and never changes the mode of a
    file that exists: a file present before the call is present after it
    with the same permission bits, also when its contents were replaced by
    generated material. *)
Theorem EnsureCert_keeps_files `{External} (h : HTTP) (defaultPath : string)
    (w : World) (p : string) (f : File) :
  fs_files (w_fs w) !! p = Some f ->
  exists f',
    fs_files (w_fs (world_of (EnsureCert h defaultPath w))) !! p = Some f'
    /\ f_mode f' = f_mode f.
Proof.
  intros Hf.
  destruct (EnsureCert_summary h defaultPath w)
    as (evs & _ & _ & _ & _ & K & _).
  exact (K p f Hf).
Qed.

Lemma EnsureCert_keeps_files_witness :
  exists f',
    fs_files (w_fs (world_of (@EnsureCert Demo.ext Demo.h_default Demo.dp
                                Demo.w_orphan_key)))
      !! (Demo.dp +:+ ".key") = Some f'
    /\ f_mode f' = (6 * 64 + 4 * 8 + 4)%N.
Proof.
  exact (@EnsureCert_keeps_files Demo.ext Demo.h_default Demo.dp
           Demo.w_orphan_key (Demo.dp +:+ ".key")
           (mkFile (Demo.b "Kold") (6 * 64 + 4 * 8 + 4))
           ltac:(vm_compute; reflexivity)).
Defined.

(** X7. [EnsureCert] calls [GenerateSelfSignedCert] exactly once, for the
    configured host name and ["localhost"], when [Insecure] is unset,
    [CertFile] is empty and the load of the candidate pair failed with a
    does-not-exist error; in every other case it does not call it and the
    entropy is untouched. *)
Theorem EnsureCert_generator_calls `{External} (h : HTTP)
    (defaultPath : string) (w : World) :
  let r := EnsureCert h defaultPath w in
  let loaded :=
    (LoadX509KeyPair (defaultPath +:+ ".crt") (defaultPath +:+ ".key") w).1 in
  let generates :=
    negb (Insecure (Config h)) && String.eqb (CertFile (Config h)) ""
    && IsNotExist loaded in
  List.filter is_generate (effects w (world_of r))
  = (if generates then [EvGenerate [Hostname (Config h); "localhost"]]
     else [])
  /\ w_entropy (world_of r)
     = (if generates then S (w_entropy w) else w_entropy w).
Proof.
  cbv zeta. rewrite LoadX509KeyPair_run. cbn [fst].
  destruct (EnsureCert_summary h defaultPath w)
    as (evs & T & _ & _ & _ & _ & G & E).
  rewrite (effects_of_extension _ _ _ T). auto.
Qed.

(** X8. [EnsureCert] generates at most once per receiver.  On the
    receiver that any call returned, failed or not, a further call (with
    any default path, on any world) keeps the receiver, writes and
    generates nothing, and, when [Insecure] is unset, returns the error of
    loading the receiver's pair as it is: a failed generation is not
    retried on the same wrapper. *)
Theorem EnsureCert_second_call_only_loads `{External} (h : HTTP)
    (defaultPath defaultPath' : string) (w w' : World) :
  let h1 := receiver_of (EnsureCert h defaultPath w) in
  let r := EnsureCert h1 defaultPath' w' in
  receiver_of r = h1
  /\ w_fs (world_of r) = w_fs w'
  /\ w_entropy (world_of r) = w_entropy w'
  /\ Forall (fun ev => is_read ev = true) (effects w' (world_of r))
  /\ (Insecure (Config h) = false ->
      result_of r
      = (LoadX509KeyPair (CertFile (Config h1)) (KeyFile (Config h1)) w').1).
Proof.
  cbv zeta. rewrite (EnsureCert_receiver h defaultPath w).
  destruct (Insecure (Config h)) eqn:Hi.
  { rewrite (EnsureCert_insecure h defaultPath' w' Hi).
    unfold receiver_of, world_of. cbn [fst snd]. rewrite effects_none.
    repeat split; [constructor|discriminate]. }
  assert (explicit : forall h1,
            Insecure (Config h1) = false -> CertFile (Config h1) <> "" ->
            receiver_of (EnsureCert h1 defaultPath' w') = h1
            /\ w_fs (world_of (EnsureCert h1 defaultPath' w')) = w_fs w'
            /\ w_entropy (world_of (EnsureCert h1 defaultPath' w'))
               = w_entropy w'
            /\ Forall (fun ev => is_read ev = true)
                 (effects w' (world_of (EnsureCert h1 defaultPath' w')))
            /\ (false = false ->
                result_of (EnsureCert h1 defaultPath' w')
                = (LoadX509KeyPair (CertFile (Config h1))
                     (KeyFile (Config h1)) w').1)).
  { intros h1 I1 C1.
    rewrite (EnsureCert_explicit h1 defaultPath' w' I1 C1),
      LoadX509KeyPair_run.
    unfold receiver_of, world_of, result_of.
    cbn [fst snd w_fs w_entropy]. rewrite effects_extend.
    repeat split. apply load_reads_are_reads. }
  destruct (String.eqb (CertFile (Config h)) "") eqn:Hc.
  - apply explicit; [exact Hi|apply crt_nonempty].
  - apply String.eqb_neq in Hc. apply explicit; assumption.
Qed.

(** X9. The errors of [EnsureCert] tell the stage that failed.  With
    explicit paths an error is the loader's own: a path error or a TLS
    error, never wrapped.  In the fallback branch an error is always a
    [trace.Wrap] wrapper: around the load error with "unrecognized error
    reading certs", around the generator's error with no message, around
    a path error on the key file with "error writing key PEM", or around a
    path error on the certificate file with "error writing cert PEM",
    whatever operation on the file the path error reports. *)
Theorem EnsureCert_error_shape `{External} (h : HTTP) (defaultPath : string)
    (w : World) (e : GoError) :
  Insecure (Config h) = false ->
  result_of (EnsureCert h defaultPath w) = Some e ->
  (CertFile (Config h) <> ""
   /\ ((exists op p errno, e = PathError op p errno)
       \/ (exists m, e = TLSError m)))
  \/ (CertFile (Config h) = ""
      /\ ((exists e0,
             (LoadX509KeyPair (defaultPath +:+ ".crt")
                (defaultPath +:+ ".key") w).1 = Some e0
             /\ IsNotExist (Some e0) = false
             /\ e = TraceErr e0 ["unrecognized error reading certs"])
          \/ (exists m, e = TraceErr (GenError m) [])
          \/ (exists op errno,
                e = TraceErr (PathError op (defaultPath +:+ ".key") errno)
                             ["error writing key PEM"])
          \/ (exists op errno,
                e = TraceErr (PathError op (defaultPath +:+ ".crt") errno)
                             ["error writing cert PEM"]))).
Proof.
  intros Hi R. rewrite LoadX509KeyPair_run. cbn [fst].
  destruct (String.eqb (CertFile (Config h)) "") eqn:Hc.
  2:{ apply String.eqb_neq in Hc.
      rewrite (EnsureCert_explicit h defaultPath w Hi Hc) in R.
      unfold result_of in R. cbn [fst] in R. rename R into L.
      left. split; [exact Hc|].
      destruct (load_pair_error_kind _ _ _ _ L)
        as [(p & errno & -> & _) | (m & ->)]; eauto. }
  apply String.eqb_eq in Hc. right. split; [exact Hc|].
  destruct (load_pair (w_fs w) (defaultPath +:+ ".crt")
              (defaultPath +:+ ".key")) as [e0|] eqn:L.
  2:{ rewrite (EnsureCert_reuse h defaultPath w Hi Hc L) in R.
      discriminate R. }
  destruct (IsNotExist (Some e0)) eqn:NE.
  2:{ rewrite (EnsureCert_unrecognized h defaultPath w e0 Hi Hc L NE) in R.
      unfold result_of in R. cbn [fst] in R. left. exists e0.
      split; [reflexivity|]. split; [exact NE|].
      destruct (load_pair_error_kind _ _ _ _ L)
        as [(p & errno & -> & _) | (m & ->)];
        cbn in R; congruence. }
  rewrite (EnsureCert_generate h defaultPath w e0 Hi Hc L NE) in R.
  cbv zeta in R.
  destruct (GenerateSelfSignedCert _ _) as [m|creds].
  { unfold result_of in R. cbn [fst] in R. right. left. exists m.
    congruence. }
  destruct (write_fs (w_fs w) _ _ _) as [[e1|] fs1] eqn:W1.
  { unfold result_of in R. cbn [fst] in R.
    destruct (write_fs_error_kind _ _ _ _ _ _ W1) as (errno & ->).
    right. right. left. exists "open", errno. cbn in R. congruence. }
  destruct (write_fs fs1 _ _ _) as [[e2|] fs2] eqn:W2.
  { unfold result_of in R. cbn [fst] in R.
    destruct (write_fs_error_kind _ _ _ _ _ _ W2) as (errno & ->).
    right. right. right. exists "open", errno. cbn in R. congruence. }
  discriminate R.
Qed.

Lemma EnsureCert_error_shape_witness :
  exists op errno,
    result_of (@EnsureCert Demo.ext Demo.h_default Demo.dp Demo.w_full)
    = Some (TraceErr (PathError op (Demo.dp +:+ ".crt") errno)
                     ["error writing cert PEM"]).
Proof.
  destruct (@EnsureCert_error_shape Demo.ext Demo.h_default Demo.dp
              Demo.w_full
              (TraceErr (PathError "open" (Demo.dp +:+ ".crt") ENOSPC)
                        ["error writing cert PEM"])
              eq_refl ltac:(vm_compute; reflexivity))
    as [(C & _)
       | (_ & [(e0 & _ & _ & E) | [(m & E) | [(o & n & E) | (o & n & E)]]])].
  - exfalso. apply C. reflexivity.
  - discriminate E.
  - discriminate E.
  - discriminate E.
  - exists o, n. rewrite <- E. vm_compute. reflexivity.
Defined.

(** X10. In the fallback branch [EnsureCert] swallows no failure: it
    returns [nil] exactly when the candidate pair loaded, or when the load
    failed with a does-not-exist error and the generation, the key write
    and the certificate write all succeeded. *)
Theorem EnsureCert_no_swallowed_failure `{External} (h : HTTP)
    (defaultPath : string) (w : World) :
  Insecure (Config h) = false ->
  CertFile (Config h) = "" ->
  let r := EnsureCert h defaultPath w in
  let loaded :=
    (LoadX509KeyPair (defaultPath +:+ ".crt") (defaultPath +:+ ".key") w).1 in
  result_of r = None
  <-> loaded = None
      \/ (IsNotExist loaded = true
          /\ exists creds fs1 fs2,
               GenerateSelfSignedCert (w_entropy w)
                 [Hostname (Config h); "localhost"] = inr creds
               /\ write_fs (w_fs w) (defaultPath +:+ ".key")
                    (PrivateKey creds) perm_0600 = (None, fs1)
               /\ write_fs fs1 (defaultPath +:+ ".crt") (Cert creds)
                    perm_0600 = (None, fs2)).
Proof.
  intros Hi Hc. cbv zeta. rewrite LoadX509KeyPair_run. cbn [fst].
  destruct (load_pair (w_fs w) (defaultPath +:+ ".crt")
              (defaultPath +:+ ".key")) as [e0|] eqn:L.
  2:{ rewrite (EnsureCert_reuse h defaultPath w Hi Hc L).
      unfold result_of. cbn [fst]. split; auto. }
  destruct (IsNotExist (Some e0)) eqn:NE.
  2:{ rewrite (EnsureCert_unrecognized h defaultPath w e0 Hi Hc L NE).
      unfold result_of. cbn [fst]. rewrite Wrap_nil_iff. split.
      - discriminate.
      - intros [F | (F & _)]; discriminate F. }
  rewrite (EnsureCert_generate h defaultPath w e0 Hi Hc L NE). cbv zeta.
  destruct (GenerateSelfSignedCert _ _) as [m|creds].
  { unfold result_of. cbn [fst]. split; [discriminate|].
    intros [F | (_ & c & f1 & f2 & F & _)]; discriminate F. }
  destruct (write_fs (w_fs w) _ _ _) as [[e1|] fs1] eqn:W1.
  { unfold result_of. cbn [fst]. rewrite Wrap_nil_iff.
    split; [discriminate|].
    intros [F | (_ & c & f1 & f2 & G & K & _)]; [discriminate F|].
    injection G as <-. rewrite W1 in K. discriminate K. }
  destruct (write_fs fs1 _ _ _) as [[e2|] fs2] eqn:W2.
  { unfold result_of. cbn [fst]. rewrite Wrap_nil_iff.
    split; [discriminate|].
    intros [F | (_ & c & f1 & f2 & G & K & C)]; [discriminate F|].
    injection G as <-. rewrite W1 in K. injection K as <-.
    rewrite W2 in C. discriminate C. }
  unfold result_of. cbn [fst]. split; [|reflexivity].
  intros _. right. split; [reflexivity|].
  exists creds, fs1, fs2. split; [reflexivity|].
  split; [exact W1|exact W2].
Qed.

Lemma EnsureCert_no_swallowed_failure_witness :
  result_of (@EnsureCert Demo.ext Demo.h_default Demo.dp Demo.w_full) <> None
  /\ result_of (@EnsureCert Demo.ext Demo.h_default Demo.dp Demo.w_pair)
     = None.
Proof.
  destruct (@EnsureCert_no_swallowed_failure Demo.ext Demo.h_default Demo.dp
              Demo.w_full eq_refl eq_refl) as [S _].
  destruct (@EnsureCert_no_swallowed_failure Demo.ext Demo.h_default Demo.dp
              Demo.w_pair eq_refl eq_refl) as [_ P].
  split.
  - intros R. destruct (S R) as [F | (_ & c & f1 & f2 & G & K & C)].
    + vm_compute in F. discriminate F.
    + injection G as <-. vm_compute in K. injection K as <-.
      vm_compute in C. discriminate C.
  - apply P. left. vm_compute. reflexivity.
Defined.

(** X11. In the fallback branch a key file whose certificate file is
    missing is not kept either: when a file is present at
    [defaultPath + ".key"], none at [defaultPath + ".crt"], the load fails
    with a does-not-exist error, and the generator and both writes
    succeed, [EnsureCert] returns [nil] and the existing key file holds the
    generated key.  [ioutil.WriteFile] does not change the mode of a file
    that exists, so the new private key is under the old file's permission
    bits, whatever they were, and not under the [0600] asked for. *)
Theorem EnsureCert_missing_cert_overwrites_key `{External} (h : HTTP)
    (defaultPath : string) (w : World) (old : File) (e0 : GoError)
    (creds : TLSCredentials) (fs1 fs2 : FS) :
  Insecure (Config h) = false ->
  CertFile (Config h) = "" ->
  fs_files (w_fs w) !! (defaultPath +:+ ".crt") = None ->
  fs_files (w_fs w) !! (defaultPath +:+ ".key") = Some old ->
  (LoadX509KeyPair (defaultPath +:+ ".crt") (defaultPath +:+ ".key") w).1
    = Some e0 ->
  IsNotExist (Some e0) = true ->
  GenerateSelfSignedCert (w_entropy w) [Hostname (Config h); "localhost"]
    = inr creds ->
  write_fs (w_fs w) (defaultPath +:+ ".key") (PrivateKey creds) perm_0600
    = (None, fs1) ->
  write_fs fs1 (defaultPath +:+ ".crt") (Cert creds) perm_0600
    = (None, fs2) ->
  let r := EnsureCert h defaultPath w in
  result_of r = None
  /\ fs_files (w_fs (world_of r)) !! (defaultPath +:+ ".key")
     = Some (mkFile (PrivateKey creds) (f_mode old))
  /\ f_data <$> fs_files (w_fs (world_of r)) !! (defaultPath +:+ ".crt")
     = Some (Cert creds).
Proof.
  intros Hi Hc Lc Lk L NE G W1 W2. cbv zeta.
  rewrite LoadX509KeyPair_run in L. cbn [fst] in L.
  rewrite (EnsureCert_generate h defaultPath w e0 Hi Hc L NE). cbv zeta.
  rewrite G, W1, W2.
  unfold result_of, world_of. cbn [fst snd w_fs].
  assert (Hne : defaultPath +:+ ".key" <> defaultPath +:+ ".crt")
    by (intros E; exact (crt_key_distinct defaultPath (eq_sym E))).
  pose proof (write_fs_success_existing _ _ _ _ _ _ Lk W1) as F1.
  apply write_fs_success in W2 as (m2 & F2 & _).
  rewrite F2, F1.
  split; [reflexivity|]. split.
  - rewrite lookup_insert_ne by congruence. apply lookup_insert_eq.
  - rewrite lookup_insert_eq. reflexivity.
Qed.

Lemma EnsureCert_missing_cert_overwrites_key_witness :
  fs_files (w_fs (world_of (@EnsureCert Demo.ext Demo.h_default Demo.dp
                              Demo.w_orphan_key)))
    !! (Demo.dp +:+ ".key")
  = Some (mkFile (Byte.x4b :: Demo.body 0 ["bot.example.com"; "localhost"])
                 (6 * 64 + 4 * 8 + 4)).
Proof.
  set (creds :=
         mkCreds (Byte.x50 :: Demo.body 0 ["bot.example.com"; "localhost"])
                 (Byte.x4b :: Demo.body 0 ["bot.example.com"; "localhost"])
                 (Byte.x43 :: Demo.body 0 ["bot.example.com"; "localhost"])).
  set (fs1 := (write_fs (w_fs Demo.w_orphan_key) (Demo.dp +:+ ".key")
                 (PrivateKey creds) perm_0600).2).
  set (fs2 := (write_fs fs1 (Demo.dp +:+ ".crt") (Cert creds)
                 perm_0600).2).
  destruct (@EnsureCert_missing_cert_overwrites_key Demo.ext Demo.h_default
              Demo.dp Demo.w_orphan_key
              (mkFile (Demo.b "Kold") (6 * 64 + 4 * 8 + 4))
              (PathError "open" (Demo.dp +:+ ".crt") ENOENT) creds fs1 fs2
              eq_refl eq_refl eq_refl ltac:(vm_compute; reflexivity)
              ltac:(vm_compute; reflexivity) eq_refl eq_refl
              ltac:(vm_compute; reflexivity) ltac:(vm_compute; reflexivity))
    as (_ & K & _).
  exact K.
Defined.

(** X12. Construction, resolution and start compose: on the wrapper that
    [NewHTTP] built from a configuration and [EnsureCert] then returned
    (whatever its result), [ListenAndServe] serves on the configured
    listen address; it serves plaintext when [Insecure] is set, with the
    configured pair when [CertFile] is not empty, and otherwise with the
    two default paths, a configured [KeyFile] without a [CertFile] being
    dropped. *)
Theorem serve_uses_resolved_paths `{External} (config : HTTPConfig)
    (defaultPath : string) (w w' : World) (ctx : Context)
    (t : Termination) :
  let h := receiver_of (EnsureCert (NewHTTP config) defaultPath w) in
  let r := ListenAndServe h ctx t w' in
  effects w' (world_of r)
  = if Insecure config
    then [EvLog LvlInfo
            ("Starting insecure HTTP server on " +:+ Listen config);
          EvListenAndServe (Listen config);
          EvLog LvlInfo "HTTP server terminated"]
    else [EvLog LvlInfo
            ("Starting secure HTTPS server on " +:+ Listen config);
          (if String.eqb (CertFile config) ""
           then EvListenAndServeTLS (Listen config)
                  (defaultPath +:+ ".crt") (defaultPath +:+ ".key")
           else EvListenAndServeTLS (Listen config)
                  (CertFile config) (KeyFile config));
          EvLog LvlInfo "HTTP server terminated"].
Proof.
  cbv zeta. rewrite (EnsureCert_receiver (NewHTTP config) defaultPath w).
  cbn [NewHTTP Config].
  unfold ListenAndServe, server_ListenAndServe, server_ListenAndServeTLS,
    log, emit, mbind, mret, IO_bind, IO_ret, world_of, effects.
  destruct config as [l k c hn i].
  cbn [Insecure CertFile KeyFile Listen].
  destruct i.
  - cbn [NewHTTP set_Handler Config server router Addr Insecure Listen
         fst snd w_fs w_entropy w_trace].
    rewrite <- !app_assoc. apply drop_app_length.
  - destruct (String.eqb c "");
      cbn [NewHTTP with_default_paths set_KeyFile set_CertFile set_Handler
           Config server router Addr Insecure Listen CertFile KeyFile
           fst snd w_fs w_entropy w_trace];
      rewrite <- !app_assoc; apply drop_app_length.
Qed.

(** X13. In the fallback branch a readable pair at the default paths that
    parses is accepted as it is, whatever host name is configured: the
    receiver gets the two default paths, the result is [nil], the call
    only logs the warning and reads the two files, and neither the file
    system nor the entropy changes. *)
Theorem EnsureCert_reuses_existing_pair `{External} (h : HTTP)
    (defaultPath : string) (w : World) (fc fk : File) :
  Insecure (Config h) = false ->
  CertFile (Config h) = "" ->
  fs_files (w_fs w) !! (defaultPath +:+ ".crt") = Some fc ->
  fs_files (w_fs w) !! (defaultPath +:+ ".key") = Some fk ->
  owner_readable fc = true ->
  owner_readable fk = true ->
  X509KeyPair (f_data fc) (f_data fk) = None ->
  let r := EnsureCert h defaultPath w in
  result_of r = None
  /\ CertFile (Config (receiver_of r)) = defaultPath +:+ ".crt"
  /\ KeyFile (Config (receiver_of r)) = defaultPath +:+ ".key"
  /\ w_fs (world_of r) = w_fs w
  /\ w_entropy (world_of r) = w_entropy w
  /\ effects w (world_of r)
     = [EvLog LvlWarning
          "No TLS Keys provided, using self signed certificate.";
        EvReadFile (defaultPath +:+ ".crt");
        EvReadFile (defaultPath +:+ ".key")].
Proof.
  intros Hi Hc Lc Lk Rc Rk P. cbv zeta.
  assert (L : load_pair (w_fs w) (defaultPath +:+ ".crt")
                (defaultPath +:+ ".key") = None).
  { unfold load_pair, read_fs. rewrite Lc, Rc, Lk, Rk, P. reflexivity. }
  rewrite (EnsureCert_reuse h defaultPath w Hi Hc L).
  unfold result_of, receiver_of, world_of.
  cbn [fst snd w_fs w_entropy]. rewrite effects_extend.
  unfold fallback_prefix, load_reads, read_fs. rewrite Lc, Rc.
  repeat split.
Qed.

Lemma EnsureCert_reuses_existing_pair_witness :
  result_of (@EnsureCert Demo.ext Demo.h_default Demo.dp Demo.w_pair) = None
  /\ w_fs (world_of (@EnsureCert Demo.ext Demo.h_default Demo.dp Demo.w_pair))
     = w_fs Demo.w_pair.
Proof.
  destruct (@EnsureCert_reuses_existing_pair Demo.ext Demo.h_default Demo.dp
              Demo.w_pair
              (mkFile (Demo.b "Cabc") perm_0600)
              (mkFile (Demo.b "Kabc") perm_0600)
              eq_refl eq_refl ltac:(vm_compute; reflexivity)
              ltac:(vm_compute; reflexivity) eq_refl eq_refl eq_refl)
    as (R & _ & _ & F & _).
  split; [exact R|exact F].
Defined.

Lemma load_pair_present `{External} (fs : FS) (c k : string) :
  load_pair fs c k = None ->
  is_Some (fs_files fs !! c) /\ is_Some (fs_files fs !! k).
Proof.
  unfold load_pair, read_fs. intros E.
  destruct (fs_files fs !! c) as [fc|]; [|discriminate].
  destruct (owner_readable fc); [|discriminate].
  destruct (fs_files fs !! k) as [fk|]; [|discriminate].
  split; eauto.
Qed.

(** X14. With [Insecure] unset, after a [nil] from [EnsureCert] both files
    that the returned receiver names exist on disk, so the later
    [ListenAndServeTLS(h.CertFile, h.KeyFile)] finds them. *)
Theorem EnsureCert_success_files_present `{External} (h : HTTP)
    (defaultPath : string) (w : World) :
  Insecure (Config h) = false ->
  let r := EnsureCert h defaultPath w in
  result_of r = None ->
  is_Some (fs_files (w_fs (world_of r)) !! CertFile (Config (receiver_of r)))
  /\ is_Some (fs_files (w_fs (world_of r))
                !! KeyFile (Config (receiver_of r))).
Proof.
  intros Hi. cbv zeta.
  destruct (String.eqb (CertFile (Config h)) "") eqn:Hc.
  2:{ apply String.eqb_neq in Hc.
      rewrite (EnsureCert_explicit h defaultPath w Hi Hc).
      unfold result_of, receiver_of, world_of. cbn [fst snd w_fs].
      apply load_pair_present. }
  apply String.eqb_eq in Hc.
  destruct (load_pair (w_fs w) (defaultPath +:+ ".crt")
              (defaultPath +:+ ".key")) as [e0|] eqn:L.
  2:{ rewrite (EnsureCert_reuse h defaultPath w Hi Hc L).
      unfold result_of, receiver_of, world_of.
      cbn [fst snd w_fs with_default_paths set_KeyFile set_CertFile Config
           CertFile KeyFile].
      intros _. apply load_pair_present. exact L. }
  destruct (IsNotExist (Some e0)) eqn:NE.
  2:{ rewrite (EnsureCert_unrecognized h defaultPath w e0 Hi Hc L NE).
      unfold result_of. cbn [fst]. rewrite Wrap_nil_iff. discriminate. }
  rewrite (EnsureCert_generate h defaultPath w e0 Hi Hc L NE). cbv zeta.
  destruct (GenerateSelfSignedCert _ _) as [m|creds]; [discriminate|].
  destruct (write_fs (w_fs w) _ _ _) as [[e1|] fs1] eqn:W1.
  { unfold result_of. cbn [fst]. rewrite Wrap_nil_iff. discriminate. }
  destruct (write_fs fs1 _ _ _) as [[e2|] fs2] eqn:W2.
  { unfold result_of. cbn [fst]. rewrite Wrap_nil_iff. discriminate. }
  intros _. unfold receiver_of, world_of.
  cbn [fst snd w_fs with_default_paths set_KeyFile set_CertFile Config
       CertFile KeyFile].
  apply write_fs_success in W1 as (m1 & F1 & _).
  apply write_fs_success in W2 as (m2 & F2 & _).
  rewrite F2, F1. split.
  - rewrite lookup_insert_eq. eauto.
  - rewrite lookup_insert_ne by apply crt_key_distinct.
    rewrite lookup_insert_eq. eauto.
Qed.

Lemma EnsureCert_success_files_present_witness :
  is_Some (fs_files (w_fs (world_of (@EnsureCert Demo.ext Demo.h_default
                                       Demo.dp Demo.w_empty)))
             !! (Demo.dp +:+ ".crt"))
  /\ is_Some (fs_files (w_fs (world_of (@EnsureCert Demo.ext Demo.h_default
                                          Demo.dp Demo.w_empty)))
                !! (Demo.dp +:+ ".key")).
Proof.
  exact (@EnsureCert_success_files_present Demo.ext Demo.h_default Demo.dp
           Demo.w_empty eq_refl ltac:(vm_compute; reflexivity)).
Defined.

(** ** Request contexts under the scope *)








